(** * Speeduino serial simulator: engine simulation, wire record and protocol

    A shallow embedding of [EngineStatus.h], [EngineSimulator.cpp] and
    [SpeeduinoProtocol.cpp].  Fixed-width C integers are integers of [Z]
    with the conversions written out; the build modelled is the full-feature
    one (ESP8266/ESP32: 32-bit [int], [SENSOR_NOISE_ENABLED] = 1,
    [ARDUINO_AVR] undefined).  The two function-local statics of
    [EngineSimulator.cpp] are a store of their own, shared by all
    simulators of a program, that [update] takes and returns. *)

From Stdlib Require Import String Ascii ZArith List Bool Lia.
Import ListNotations.
Open Scope Z_scope.

(** ** Fixed-width integer conversions *)

Module CInt.

(** Conversion to an unsigned type of [w] bits keeps the value modulo [2^w]. *)
Definition to_u8 (z : Z) : Z := z mod 256.
Definition to_u16 (z : Z) : Z := z mod 65536.
Definition to_u32 (z : Z) : Z := z mod 4294967296.

(** Conversion to a signed type wraps into the two's-complement range. *)
Definition to_i8 (z : Z) : Z := (z + 128) mod 256 - 128.
Definition to_i16 (z : Z) : Z := (z + 32768) mod 65536 - 32768.

(** C's [/] truncates toward zero. *)
Definition cdiv (a b : Z) : Z := Z.quot a b.

(** C's [%] takes the sign of the dividend. *)
Definition cmod (a b : Z) : Z := Z.rem a b.

End CInt.
Import CInt.

(** ** Config.h *)

Definition RPM_MIN : Z := 0.
Definition RPM_IDLE_MIN : Z := 700.
Definition RPM_IDLE_MAX : Z := 900.
Definition RPM_CRUISE : Z := 2500.
Definition RPM_HIGH_START : Z := 5000.
Definition RPM_MAX : Z := 7000.
Definition RPM_REDLINE : Z := 6800.

Definition TEMP_AMBIENT : Z := 200.
Definition TEMP_ENGINE_WARM : Z := 800.
Definition TEMP_ENGINE_HOT : Z := 950.

Definition MAP_ATMOSPHERIC : Z := 100.
Definition MAP_IDLE : Z := 35.
Definition MAP_WOT : Z := 95.
Definition BARO_SEALEVEL : Z := 100.

Definition VOLTAGE_NORMAL : Z := 140.

Definition AFR_STOICH : Z := 147.
Definition AFR_RICH : Z := 130.
Definition AFR_LEAN : Z := 160.
Definition AFR_WOT : Z := 125.

Definition TPS_IDLE : Z := 2.
Definition TPS_CRUISE : Z := 20.
Definition TPS_HALF : Z := 50.
Definition TPS_WOT : Z := 100.

Definition TIMING_IDLE : Z := 15.
Definition TIMING_MAX : Z := 35.

Definition PW_MIN : Z := 10.
Definition PW_MAX : Z := 255.

Definition FIRMWARE_VERSION : string := "2.0.0".
Definition SPEEDUINO_SIGNATURE : string := "speeduino 202310".
Definition SERIAL_BAUD_RATE : Z := 115200.

Definition UPDATE_INTERVAL_MS : Z := 50.
Definition STATE_TRANSITION_MS : Z := 5000.

(** ** EngineStatus.h: the 79-byte wire record

    The struct is packed; every field is one byte and [canin] is an array
    of 32 bytes, indexed here by position. *)

Record EngineStatus : Type := mkEngineStatus {
  response : Z;  (* byte 0 *)
  secl : Z;  (* byte 1 *)
  status1 : Z;  (* byte 2 *)
  engine : Z;  (* byte 3 *)
  dwell : Z;  (* byte 4 *)
  maplo : Z;  (* byte 5 *)
  maphi : Z;  (* byte 6 *)
  iat : Z;  (* byte 7 *)
  clt : Z;  (* byte 8 *)
  batcorrection : Z;  (* byte 9 *)
  batteryv : Z;  (* byte 10 *)
  o2 : Z;  (* byte 11 *)
  egocorrection : Z;  (* byte 12 *)
  iatcorrection : Z;  (* byte 13 *)
  wue : Z;  (* byte 14 *)
  rpmlo : Z;  (* byte 15 *)
  rpmhi : Z;  (* byte 16 *)
  taeamount : Z;  (* byte 17 *)
  gammae : Z;  (* byte 18 *)
  ve : Z;  (* byte 19 *)
  afrtarget : Z;  (* byte 20 *)
  pw1lo : Z;  (* byte 21 *)
  pw1hi : Z;  (* byte 22 *)
  tpsdot : Z;  (* byte 23 *)
  advance : Z;  (* byte 24 *)
  tps : Z;  (* byte 25 *)
  loopslo : Z;  (* byte 26 *)
  loopshi : Z;  (* byte 27 *)
  freeramlo : Z;  (* byte 28 *)
  freeramhi : Z;  (* byte 29 *)
  boosttarget : Z;  (* byte 30 *)
  boostduty : Z;  (* byte 31 *)
  spark : Z;  (* byte 32 *)
  rpmdotlo : Z;  (* byte 33 *)
  rpmdothi : Z;  (* byte 34 *)
  ethanolpct : Z;  (* byte 35 *)
  flexcorrection : Z;  (* byte 36 *)
  flexigncorrection : Z;  (* byte 37 *)
  idleload : Z;  (* byte 38 *)
  testoutputs : Z;  (* byte 39 *)
  o2_2 : Z;  (* byte 40 *)
  baro : Z;  (* byte 41 *)
  canin : nat -> Z;  (* bytes 42-73 *)
  tpsadc : Z;  (* byte 74 *)
  errors : Z;  (* byte 75 *)
  unused1 : Z;  (* byte 76 *)
  unused2 : Z;  (* byte 77 *)
  unused3 : Z  (* byte 78 *)
}.

Definition set_response (v : Z) (s : EngineStatus) : EngineStatus :=
  mkEngineStatus v (secl s) (status1 s) (engine s) (dwell s) (maplo s)
    (maphi s) (iat s) (clt s) (batcorrection s) (batteryv s) (o2 s)
    (egocorrection s) (iatcorrection s) (wue s) (rpmlo s) (rpmhi s)
    (taeamount s) (gammae s) (ve s) (afrtarget s) (pw1lo s) (pw1hi s)
    (tpsdot s) (advance s) (tps s) (loopslo s) (loopshi s) (freeramlo s)
    (freeramhi s) (boosttarget s) (boostduty s) (spark s) (rpmdotlo s)
    (rpmdothi s) (ethanolpct s) (flexcorrection s) (flexigncorrection s)
    (idleload s) (testoutputs s) (o2_2 s) (baro s) (canin s) (tpsadc s)
    (errors s) (unused1 s) (unused2 s) (unused3 s).

Definition set_secl (v : Z) (s : EngineStatus) : EngineStatus :=
  mkEngineStatus (response s) v (status1 s) (engine s) (dwell s) (maplo s)
    (maphi s) (iat s) (clt s) (batcorrection s) (batteryv s) (o2 s)
    (egocorrection s) (iatcorrection s) (wue s) (rpmlo s) (rpmhi s)
    (taeamount s) (gammae s) (ve s) (afrtarget s) (pw1lo s) (pw1hi s)
    (tpsdot s) (advance s) (tps s) (loopslo s) (loopshi s) (freeramlo s)
    (freeramhi s) (boosttarget s) (boostduty s) (spark s) (rpmdotlo s)
    (rpmdothi s) (ethanolpct s) (flexcorrection s) (flexigncorrection s)
    (idleload s) (testoutputs s) (o2_2 s) (baro s) (canin s) (tpsadc s)
    (errors s) (unused1 s) (unused2 s) (unused3 s).

Definition set_status1 (v : Z) (s : EngineStatus) : EngineStatus :=
  mkEngineStatus (response s) (secl s) v (engine s) (dwell s) (maplo s)
    (maphi s) (iat s) (clt s) (batcorrection s) (batteryv s) (o2 s)
    (egocorrection s) (iatcorrection s) (wue s) (rpmlo s) (rpmhi s)
    (taeamount s) (gammae s) (ve s) (afrtarget s) (pw1lo s) (pw1hi s)
    (tpsdot s) (advance s) (tps s) (loopslo s) (loopshi s) (freeramlo s)
    (freeramhi s) (boosttarget s) (boostduty s) (spark s) (rpmdotlo s)
    (rpmdothi s) (ethanolpct s) (flexcorrection s) (flexigncorrection s)
    (idleload s) (testoutputs s) (o2_2 s) (baro s) (canin s) (tpsadc s)
    (errors s) (unused1 s) (unused2 s) (unused3 s).

Definition set_engine (v : Z) (s : EngineStatus) : EngineStatus :=
  mkEngineStatus (response s) (secl s) (status1 s) v (dwell s) (maplo s)
    (maphi s) (iat s) (clt s) (batcorrection s) (batteryv s) (o2 s)
    (egocorrection s) (iatcorrection s) (wue s) (rpmlo s) (rpmhi s)
    (taeamount s) (gammae s) (ve s) (afrtarget s) (pw1lo s) (pw1hi s)
    (tpsdot s) (advance s) (tps s) (loopslo s) (loopshi s) (freeramlo s)
    (freeramhi s) (boosttarget s) (boostduty s) (spark s) (rpmdotlo s)
    (rpmdothi s) (ethanolpct s) (flexcorrection s) (flexigncorrection s)
    (idleload s) (testoutputs s) (o2_2 s) (baro s) (canin s) (tpsadc s)
    (errors s) (unused1 s) (unused2 s) (unused3 s).

Definition set_dwell (v : Z) (s : EngineStatus) : EngineStatus :=
  mkEngineStatus (response s) (secl s) (status1 s) (engine s) v (maplo s)
    (maphi s) (iat s) (clt s) (batcorrection s) (batteryv s) (o2 s)
    (egocorrection s) (iatcorrection s) (wue s) (rpmlo s) (rpmhi s)
    (taeamount s) (gammae s) (ve s) (afrtarget s) (pw1lo s) (pw1hi s)
    (tpsdot s) (advance s) (tps s) (loopslo s) (loopshi s) (freeramlo s)
    (freeramhi s) (boosttarget s) (boostduty s) (spark s) (rpmdotlo s)
    (rpmdothi s) (ethanolpct s) (flexcorrection s) (flexigncorrection s)
    (idleload s) (testoutputs s) (o2_2 s) (baro s) (canin s) (tpsadc s)
    (errors s) (unused1 s) (unused2 s) (unused3 s).

Definition set_maplo (v : Z) (s : EngineStatus) : EngineStatus :=
  mkEngineStatus (response s) (secl s) (status1 s) (engine s) (dwell s) v
    (maphi s) (iat s) (clt s) (batcorrection s) (batteryv s) (o2 s)
    (egocorrection s) (iatcorrection s) (wue s) (rpmlo s) (rpmhi s)
    (taeamount s) (gammae s) (ve s) (afrtarget s) (pw1lo s) (pw1hi s)
    (tpsdot s) (advance s) (tps s) (loopslo s) (loopshi s) (freeramlo s)
    (freeramhi s) (boosttarget s) (boostduty s) (spark s) (rpmdotlo s)
    (rpmdothi s) (ethanolpct s) (flexcorrection s) (flexigncorrection s)
    (idleload s) (testoutputs s) (o2_2 s) (baro s) (canin s) (tpsadc s)
    (errors s) (unused1 s) (unused2 s) (unused3 s).

Definition set_maphi (v : Z) (s : EngineStatus) : EngineStatus :=
  mkEngineStatus (response s) (secl s) (status1 s) (engine s) (dwell s)
    (maplo s) v (iat s) (clt s) (batcorrection s) (batteryv s) (o2 s)
    (egocorrection s) (iatcorrection s) (wue s) (rpmlo s) (rpmhi s)
    (taeamount s) (gammae s) (ve s) (afrtarget s) (pw1lo s) (pw1hi s)
    (tpsdot s) (advance s) (tps s) (loopslo s) (loopshi s) (freeramlo s)
    (freeramhi s) (boosttarget s) (boostduty s) (spark s) (rpmdotlo s)
    (rpmdothi s) (ethanolpct s) (flexcorrection s) (flexigncorrection s)
    (idleload s) (testoutputs s) (o2_2 s) (baro s) (canin s) (tpsadc s)
    (errors s) (unused1 s) (unused2 s) (unused3 s).

Definition set_iat (v : Z) (s : EngineStatus) : EngineStatus :=
  mkEngineStatus (response s) (secl s) (status1 s) (engine s) (dwell s)
    (maplo s) (maphi s) v (clt s) (batcorrection s) (batteryv s) (o2 s)
    (egocorrection s) (iatcorrection s) (wue s) (rpmlo s) (rpmhi s)
    (taeamount s) (gammae s) (ve s) (afrtarget s) (pw1lo s) (pw1hi s)
    (tpsdot s) (advance s) (tps s) (loopslo s) (loopshi s) (freeramlo s)
    (freeramhi s) (boosttarget s) (boostduty s) (spark s) (rpmdotlo s)
    (rpmdothi s) (ethanolpct s) (flexcorrection s) (flexigncorrection s)
    (idleload s) (testoutputs s) (o2_2 s) (baro s) (canin s) (tpsadc s)
    (errors s) (unused1 s) (unused2 s) (unused3 s).

Definition set_clt (v : Z) (s : EngineStatus) : EngineStatus :=
  mkEngineStatus (response s) (secl s) (status1 s) (engine s) (dwell s)
    (maplo s) (maphi s) (iat s) v (batcorrection s) (batteryv s) (o2 s)
    (egocorrection s) (iatcorrection s) (wue s) (rpmlo s) (rpmhi s)
    (taeamount s) (gammae s) (ve s) (afrtarget s) (pw1lo s) (pw1hi s)
    (tpsdot s) (advance s) (tps s) (loopslo s) (loopshi s) (freeramlo s)
    (freeramhi s) (boosttarget s) (boostduty s) (spark s) (rpmdotlo s)
    (rpmdothi s) (ethanolpct s) (flexcorrection s) (flexigncorrection s)
    (idleload s) (testoutputs s) (o2_2 s) (baro s) (canin s) (tpsadc s)
    (errors s) (unused1 s) (unused2 s) (unused3 s).

Definition set_batcorrection (v : Z) (s : EngineStatus) : EngineStatus :=
  mkEngineStatus (response s) (secl s) (status1 s) (engine s) (dwell s)
    (maplo s) (maphi s) (iat s) (clt s) v (batteryv s) (o2 s)
    (egocorrection s) (iatcorrection s) (wue s) (rpmlo s) (rpmhi s)
    (taeamount s) (gammae s) (ve s) (afrtarget s) (pw1lo s) (pw1hi s)
    (tpsdot s) (advance s) (tps s) (loopslo s) (loopshi s) (freeramlo s)
    (freeramhi s) (boosttarget s) (boostduty s) (spark s) (rpmdotlo s)
    (rpmdothi s) (ethanolpct s) (flexcorrection s) (flexigncorrection s)
    (idleload s) (testoutputs s) (o2_2 s) (baro s) (canin s) (tpsadc s)
    (errors s) (unused1 s) (unused2 s) (unused3 s).

Definition set_batteryv (v : Z) (s : EngineStatus) : EngineStatus :=
  mkEngineStatus (response s) (secl s) (status1 s) (engine s) (dwell s)
    (maplo s) (maphi s) (iat s) (clt s) (batcorrection s) v (o2 s)
    (egocorrection s) (iatcorrection s) (wue s) (rpmlo s) (rpmhi s)
    (taeamount s) (gammae s) (ve s) (afrtarget s) (pw1lo s) (pw1hi s)
    (tpsdot s) (advance s) (tps s) (loopslo s) (loopshi s) (freeramlo s)
    (freeramhi s) (boosttarget s) (boostduty s) (spark s) (rpmdotlo s)
    (rpmdothi s) (ethanolpct s) (flexcorrection s) (flexigncorrection s)
    (idleload s) (testoutputs s) (o2_2 s) (baro s) (canin s) (tpsadc s)
    (errors s) (unused1 s) (unused2 s) (unused3 s).

Definition set_o2 (v : Z) (s : EngineStatus) : EngineStatus :=
  mkEngineStatus (response s) (secl s) (status1 s) (engine s) (dwell s)
    (maplo s) (maphi s) (iat s) (clt s) (batcorrection s) (batteryv s) v
    (egocorrection s) (iatcorrection s) (wue s) (rpmlo s) (rpmhi s)
    (taeamount s) (gammae s) (ve s) (afrtarget s) (pw1lo s) (pw1hi s)
    (tpsdot s) (advance s) (tps s) (loopslo s) (loopshi s) (freeramlo s)
    (freeramhi s) (boosttarget s) (boostduty s) (spark s) (rpmdotlo s)
    (rpmdothi s) (ethanolpct s) (flexcorrection s) (flexigncorrection s)
    (idleload s) (testoutputs s) (o2_2 s) (baro s) (canin s) (tpsadc s)
    (errors s) (unused1 s) (unused2 s) (unused3 s).

Definition set_egocorrection (v : Z) (s : EngineStatus) : EngineStatus :=
  mkEngineStatus (response s) (secl s) (status1 s) (engine s) (dwell s)
    (maplo s) (maphi s) (iat s) (clt s) (batcorrection s) (batteryv s) (o2 s)
    v (iatcorrection s) (wue s) (rpmlo s) (rpmhi s) (taeamount s) (gammae s)
    (ve s) (afrtarget s) (pw1lo s) (pw1hi s) (tpsdot s) (advance s) (tps s)
    (loopslo s) (loopshi s) (freeramlo s) (freeramhi s) (boosttarget s)
    (boostduty s) (spark s) (rpmdotlo s) (rpmdothi s) (ethanolpct s)
    (flexcorrection s) (flexigncorrection s) (idleload s) (testoutputs s)
    (o2_2 s) (baro s) (canin s) (tpsadc s) (errors s) (unused1 s) (unused2 s)
    (unused3 s).

Definition set_iatcorrection (v : Z) (s : EngineStatus) : EngineStatus :=
  mkEngineStatus (response s) (secl s) (status1 s) (engine s) (dwell s)
    (maplo s) (maphi s) (iat s) (clt s) (batcorrection s) (batteryv s) (o2 s)
    (egocorrection s) v (wue s) (rpmlo s) (rpmhi s) (taeamount s) (gammae s)
    (ve s) (afrtarget s) (pw1lo s) (pw1hi s) (tpsdot s) (advance s) (tps s)
    (loopslo s) (loopshi s) (freeramlo s) (freeramhi s) (boosttarget s)
    (boostduty s) (spark s) (rpmdotlo s) (rpmdothi s) (ethanolpct s)
    (flexcorrection s) (flexigncorrection s) (idleload s) (testoutputs s)
    (o2_2 s) (baro s) (canin s) (tpsadc s) (errors s) (unused1 s) (unused2 s)
    (unused3 s).

Definition set_wue (v : Z) (s : EngineStatus) : EngineStatus :=
  mkEngineStatus (response s) (secl s) (status1 s) (engine s) (dwell s)
    (maplo s) (maphi s) (iat s) (clt s) (batcorrection s) (batteryv s) (o2 s)
    (egocorrection s) (iatcorrection s) v (rpmlo s) (rpmhi s) (taeamount s)
    (gammae s) (ve s) (afrtarget s) (pw1lo s) (pw1hi s) (tpsdot s) (advance s)
    (tps s) (loopslo s) (loopshi s) (freeramlo s) (freeramhi s)
    (boosttarget s) (boostduty s) (spark s) (rpmdotlo s) (rpmdothi s)
    (ethanolpct s) (flexcorrection s) (flexigncorrection s) (idleload s)
    (testoutputs s) (o2_2 s) (baro s) (canin s) (tpsadc s) (errors s)
    (unused1 s) (unused2 s) (unused3 s).

Definition set_rpmlo (v : Z) (s : EngineStatus) : EngineStatus :=
  mkEngineStatus (response s) (secl s) (status1 s) (engine s) (dwell s)
    (maplo s) (maphi s) (iat s) (clt s) (batcorrection s) (batteryv s) (o2 s)
    (egocorrection s) (iatcorrection s) (wue s) v (rpmhi s) (taeamount s)
    (gammae s) (ve s) (afrtarget s) (pw1lo s) (pw1hi s) (tpsdot s) (advance s)
    (tps s) (loopslo s) (loopshi s) (freeramlo s) (freeramhi s)
    (boosttarget s) (boostduty s) (spark s) (rpmdotlo s) (rpmdothi s)
    (ethanolpct s) (flexcorrection s) (flexigncorrection s) (idleload s)
    (testoutputs s) (o2_2 s) (baro s) (canin s) (tpsadc s) (errors s)
    (unused1 s) (unused2 s) (unused3 s).

Definition set_rpmhi (v : Z) (s : EngineStatus) : EngineStatus :=
  mkEngineStatus (response s) (secl s) (status1 s) (engine s) (dwell s)
    (maplo s) (maphi s) (iat s) (clt s) (batcorrection s) (batteryv s) (o2 s)
    (egocorrection s) (iatcorrection s) (wue s) (rpmlo s) v (taeamount s)
    (gammae s) (ve s) (afrtarget s) (pw1lo s) (pw1hi s) (tpsdot s) (advance s)
    (tps s) (loopslo s) (loopshi s) (freeramlo s) (freeramhi s)
    (boosttarget s) (boostduty s) (spark s) (rpmdotlo s) (rpmdothi s)
    (ethanolpct s) (flexcorrection s) (flexigncorrection s) (idleload s)
    (testoutputs s) (o2_2 s) (baro s) (canin s) (tpsadc s) (errors s)
    (unused1 s) (unused2 s) (unused3 s).

Definition set_taeamount (v : Z) (s : EngineStatus) : EngineStatus :=
  mkEngineStatus (response s) (secl s) (status1 s) (engine s) (dwell s)
    (maplo s) (maphi s) (iat s) (clt s) (batcorrection s) (batteryv s) (o2 s)
    (egocorrection s) (iatcorrection s) (wue s) (rpmlo s) (rpmhi s) v
    (gammae s) (ve s) (afrtarget s) (pw1lo s) (pw1hi s) (tpsdot s) (advance s)
    (tps s) (loopslo s) (loopshi s) (freeramlo s) (freeramhi s)
    (boosttarget s) (boostduty s) (spark s) (rpmdotlo s) (rpmdothi s)
    (ethanolpct s) (flexcorrection s) (flexigncorrection s) (idleload s)
    (testoutputs s) (o2_2 s) (baro s) (canin s) (tpsadc s) (errors s)
    (unused1 s) (unused2 s) (unused3 s).

Definition set_gammae (v : Z) (s : EngineStatus) : EngineStatus :=
  mkEngineStatus (response s) (secl s) (status1 s) (engine s) (dwell s)
    (maplo s) (maphi s) (iat s) (clt s) (batcorrection s) (batteryv s) (o2 s)
    (egocorrection s) (iatcorrection s) (wue s) (rpmlo s) (rpmhi s)
    (taeamount s) v (ve s) (afrtarget s) (pw1lo s) (pw1hi s) (tpsdot s)
    (advance s) (tps s) (loopslo s) (loopshi s) (freeramlo s) (freeramhi s)
    (boosttarget s) (boostduty s) (spark s) (rpmdotlo s) (rpmdothi s)
    (ethanolpct s) (flexcorrection s) (flexigncorrection s) (idleload s)
    (testoutputs s) (o2_2 s) (baro s) (canin s) (tpsadc s) (errors s)
    (unused1 s) (unused2 s) (unused3 s).

Definition set_ve (v : Z) (s : EngineStatus) : EngineStatus :=
  mkEngineStatus (response s) (secl s) (status1 s) (engine s) (dwell s)
    (maplo s) (maphi s) (iat s) (clt s) (batcorrection s) (batteryv s) (o2 s)
    (egocorrection s) (iatcorrection s) (wue s) (rpmlo s) (rpmhi s)
    (taeamount s) (gammae s) v (afrtarget s) (pw1lo s) (pw1hi s) (tpsdot s)
    (advance s) (tps s) (loopslo s) (loopshi s) (freeramlo s) (freeramhi s)
    (boosttarget s) (boostduty s) (spark s) (rpmdotlo s) (rpmdothi s)
    (ethanolpct s) (flexcorrection s) (flexigncorrection s) (idleload s)
    (testoutputs s) (o2_2 s) (baro s) (canin s) (tpsadc s) (errors s)
    (unused1 s) (unused2 s) (unused3 s).

Definition set_afrtarget (v : Z) (s : EngineStatus) : EngineStatus :=
  mkEngineStatus (response s) (secl s) (status1 s) (engine s) (dwell s)
    (maplo s) (maphi s) (iat s) (clt s) (batcorrection s) (batteryv s) (o2 s)
    (egocorrection s) (iatcorrection s) (wue s) (rpmlo s) (rpmhi s)
    (taeamount s) (gammae s) (ve s) v (pw1lo s) (pw1hi s) (tpsdot s)
    (advance s) (tps s) (loopslo s) (loopshi s) (freeramlo s) (freeramhi s)
    (boosttarget s) (boostduty s) (spark s) (rpmdotlo s) (rpmdothi s)
    (ethanolpct s) (flexcorrection s) (flexigncorrection s) (idleload s)
    (testoutputs s) (o2_2 s) (baro s) (canin s) (tpsadc s) (errors s)
    (unused1 s) (unused2 s) (unused3 s).

Definition set_pw1lo (v : Z) (s : EngineStatus) : EngineStatus :=
  mkEngineStatus (response s) (secl s) (status1 s) (engine s) (dwell s)
    (maplo s) (maphi s) (iat s) (clt s) (batcorrection s) (batteryv s) (o2 s)
    (egocorrection s) (iatcorrection s) (wue s) (rpmlo s) (rpmhi s)
    (taeamount s) (gammae s) (ve s) (afrtarget s) v (pw1hi s) (tpsdot s)
    (advance s) (tps s) (loopslo s) (loopshi s) (freeramlo s) (freeramhi s)
    (boosttarget s) (boostduty s) (spark s) (rpmdotlo s) (rpmdothi s)
    (ethanolpct s) (flexcorrection s) (flexigncorrection s) (idleload s)
    (testoutputs s) (o2_2 s) (baro s) (canin s) (tpsadc s) (errors s)
    (unused1 s) (unused2 s) (unused3 s).

Definition set_pw1hi (v : Z) (s : EngineStatus) : EngineStatus :=
  mkEngineStatus (response s) (secl s) (status1 s) (engine s) (dwell s)
    (maplo s) (maphi s) (iat s) (clt s) (batcorrection s) (batteryv s) (o2 s)
    (egocorrection s) (iatcorrection s) (wue s) (rpmlo s) (rpmhi s)
    (taeamount s) (gammae s) (ve s) (afrtarget s) (pw1lo s) v (tpsdot s)
    (advance s) (tps s) (loopslo s) (loopshi s) (freeramlo s) (freeramhi s)
    (boosttarget s) (boostduty s) (spark s) (rpmdotlo s) (rpmdothi s)
    (ethanolpct s) (flexcorrection s) (flexigncorrection s) (idleload s)
    (testoutputs s) (o2_2 s) (baro s) (canin s) (tpsadc s) (errors s)
    (unused1 s) (unused2 s) (unused3 s).

Definition set_tpsdot (v : Z) (s : EngineStatus) : EngineStatus :=
  mkEngineStatus (response s) (secl s) (status1 s) (engine s) (dwell s)
    (maplo s) (maphi s) (iat s) (clt s) (batcorrection s) (batteryv s) (o2 s)
    (egocorrection s) (iatcorrection s) (wue s) (rpmlo s) (rpmhi s)
    (taeamount s) (gammae s) (ve s) (afrtarget s) (pw1lo s) (pw1hi s) v
    (advance s) (tps s) (loopslo s) (loopshi s) (freeramlo s) (freeramhi s)
    (boosttarget s) (boostduty s) (spark s) (rpmdotlo s) (rpmdothi s)
    (ethanolpct s) (flexcorrection s) (flexigncorrection s) (idleload s)
    (testoutputs s) (o2_2 s) (baro s) (canin s) (tpsadc s) (errors s)
    (unused1 s) (unused2 s) (unused3 s).

Definition set_advance (v : Z) (s : EngineStatus) : EngineStatus :=
  mkEngineStatus (response s) (secl s) (status1 s) (engine s) (dwell s)
    (maplo s) (maphi s) (iat s) (clt s) (batcorrection s) (batteryv s) (o2 s)
    (egocorrection s) (iatcorrection s) (wue s) (rpmlo s) (rpmhi s)
    (taeamount s) (gammae s) (ve s) (afrtarget s) (pw1lo s) (pw1hi s)
    (tpsdot s) v (tps s) (loopslo s) (loopshi s) (freeramlo s) (freeramhi s)
    (boosttarget s) (boostduty s) (spark s) (rpmdotlo s) (rpmdothi s)
    (ethanolpct s) (flexcorrection s) (flexigncorrection s) (idleload s)
    (testoutputs s) (o2_2 s) (baro s) (canin s) (tpsadc s) (errors s)
    (unused1 s) (unused2 s) (unused3 s).

Definition set_tps (v : Z) (s : EngineStatus) : EngineStatus :=
  mkEngineStatus (response s) (secl s) (status1 s) (engine s) (dwell s)
    (maplo s) (maphi s) (iat s) (clt s) (batcorrection s) (batteryv s) (o2 s)
    (egocorrection s) (iatcorrection s) (wue s) (rpmlo s) (rpmhi s)
    (taeamount s) (gammae s) (ve s) (afrtarget s) (pw1lo s) (pw1hi s)
    (tpsdot s) (advance s) v (loopslo s) (loopshi s) (freeramlo s)
    (freeramhi s) (boosttarget s) (boostduty s) (spark s) (rpmdotlo s)
    (rpmdothi s) (ethanolpct s) (flexcorrection s) (flexigncorrection s)
    (idleload s) (testoutputs s) (o2_2 s) (baro s) (canin s) (tpsadc s)
    (errors s) (unused1 s) (unused2 s) (unused3 s).

Definition set_loopslo (v : Z) (s : EngineStatus) : EngineStatus :=
  mkEngineStatus (response s) (secl s) (status1 s) (engine s) (dwell s)
    (maplo s) (maphi s) (iat s) (clt s) (batcorrection s) (batteryv s) (o2 s)
    (egocorrection s) (iatcorrection s) (wue s) (rpmlo s) (rpmhi s)
    (taeamount s) (gammae s) (ve s) (afrtarget s) (pw1lo s) (pw1hi s)
    (tpsdot s) (advance s) (tps s) v (loopshi s) (freeramlo s) (freeramhi s)
    (boosttarget s) (boostduty s) (spark s) (rpmdotlo s) (rpmdothi s)
    (ethanolpct s) (flexcorrection s) (flexigncorrection s) (idleload s)
    (testoutputs s) (o2_2 s) (baro s) (canin s) (tpsadc s) (errors s)
    (unused1 s) (unused2 s) (unused3 s).

Definition set_loopshi (v : Z) (s : EngineStatus) : EngineStatus :=
  mkEngineStatus (response s) (secl s) (status1 s) (engine s) (dwell s)
    (maplo s) (maphi s) (iat s) (clt s) (batcorrection s) (batteryv s) (o2 s)
    (egocorrection s) (iatcorrection s) (wue s) (rpmlo s) (rpmhi s)
    (taeamount s) (gammae s) (ve s) (afrtarget s) (pw1lo s) (pw1hi s)
    (tpsdot s) (advance s) (tps s) (loopslo s) v (freeramlo s) (freeramhi s)
    (boosttarget s) (boostduty s) (spark s) (rpmdotlo s) (rpmdothi s)
    (ethanolpct s) (flexcorrection s) (flexigncorrection s) (idleload s)
    (testoutputs s) (o2_2 s) (baro s) (canin s) (tpsadc s) (errors s)
    (unused1 s) (unused2 s) (unused3 s).

Definition set_freeramlo (v : Z) (s : EngineStatus) : EngineStatus :=
  mkEngineStatus (response s) (secl s) (status1 s) (engine s) (dwell s)
    (maplo s) (maphi s) (iat s) (clt s) (batcorrection s) (batteryv s) (o2 s)
    (egocorrection s) (iatcorrection s) (wue s) (rpmlo s) (rpmhi s)
    (taeamount s) (gammae s) (ve s) (afrtarget s) (pw1lo s) (pw1hi s)
    (tpsdot s) (advance s) (tps s) (loopslo s) (loopshi s) v (freeramhi s)
    (boosttarget s) (boostduty s) (spark s) (rpmdotlo s) (rpmdothi s)
    (ethanolpct s) (flexcorrection s) (flexigncorrection s) (idleload s)
    (testoutputs s) (o2_2 s) (baro s) (canin s) (tpsadc s) (errors s)
    (unused1 s) (unused2 s) (unused3 s).

Definition set_freeramhi (v : Z) (s : EngineStatus) : EngineStatus :=
  mkEngineStatus (response s) (secl s) (status1 s) (engine s) (dwell s)
    (maplo s) (maphi s) (iat s) (clt s) (batcorrection s) (batteryv s) (o2 s)
    (egocorrection s) (iatcorrection s) (wue s) (rpmlo s) (rpmhi s)
    (taeamount s) (gammae s) (ve s) (afrtarget s) (pw1lo s) (pw1hi s)
    (tpsdot s) (advance s) (tps s) (loopslo s) (loopshi s) (freeramlo s) v
    (boosttarget s) (boostduty s) (spark s) (rpmdotlo s) (rpmdothi s)
    (ethanolpct s) (flexcorrection s) (flexigncorrection s) (idleload s)
    (testoutputs s) (o2_2 s) (baro s) (canin s) (tpsadc s) (errors s)
    (unused1 s) (unused2 s) (unused3 s).

Definition set_boosttarget (v : Z) (s : EngineStatus) : EngineStatus :=
  mkEngineStatus (response s) (secl s) (status1 s) (engine s) (dwell s)
    (maplo s) (maphi s) (iat s) (clt s) (batcorrection s) (batteryv s) (o2 s)
    (egocorrection s) (iatcorrection s) (wue s) (rpmlo s) (rpmhi s)
    (taeamount s) (gammae s) (ve s) (afrtarget s) (pw1lo s) (pw1hi s)
    (tpsdot s) (advance s) (tps s) (loopslo s) (loopshi s) (freeramlo s)
    (freeramhi s) v (boostduty s) (spark s) (rpmdotlo s) (rpmdothi s)
    (ethanolpct s) (flexcorrection s) (flexigncorrection s) (idleload s)
    (testoutputs s) (o2_2 s) (baro s) (canin s) (tpsadc s) (errors s)
    (unused1 s) (unused2 s) (unused3 s).

Definition set_boostduty (v : Z) (s : EngineStatus) : EngineStatus :=
  mkEngineStatus (response s) (secl s) (status1 s) (engine s) (dwell s)
    (maplo s) (maphi s) (iat s) (clt s) (batcorrection s) (batteryv s) (o2 s)
    (egocorrection s) (iatcorrection s) (wue s) (rpmlo s) (rpmhi s)
    (taeamount s) (gammae s) (ve s) (afrtarget s) (pw1lo s) (pw1hi s)
    (tpsdot s) (advance s) (tps s) (loopslo s) (loopshi s) (freeramlo s)
    (freeramhi s) (boosttarget s) v (spark s) (rpmdotlo s) (rpmdothi s)
    (ethanolpct s) (flexcorrection s) (flexigncorrection s) (idleload s)
    (testoutputs s) (o2_2 s) (baro s) (canin s) (tpsadc s) (errors s)
    (unused1 s) (unused2 s) (unused3 s).

Definition set_spark (v : Z) (s : EngineStatus) : EngineStatus :=
  mkEngineStatus (response s) (secl s) (status1 s) (engine s) (dwell s)
    (maplo s) (maphi s) (iat s) (clt s) (batcorrection s) (batteryv s) (o2 s)
    (egocorrection s) (iatcorrection s) (wue s) (rpmlo s) (rpmhi s)
    (taeamount s) (gammae s) (ve s) (afrtarget s) (pw1lo s) (pw1hi s)
    (tpsdot s) (advance s) (tps s) (loopslo s) (loopshi s) (freeramlo s)
    (freeramhi s) (boosttarget s) (boostduty s) v (rpmdotlo s) (rpmdothi s)
    (ethanolpct s) (flexcorrection s) (flexigncorrection s) (idleload s)
    (testoutputs s) (o2_2 s) (baro s) (canin s) (tpsadc s) (errors s)
    (unused1 s) (unused2 s) (unused3 s).

Definition set_rpmdotlo (v : Z) (s : EngineStatus) : EngineStatus :=
  mkEngineStatus (response s) (secl s) (status1 s) (engine s) (dwell s)
    (maplo s) (maphi s) (iat s) (clt s) (batcorrection s) (batteryv s) (o2 s)
    (egocorrection s) (iatcorrection s) (wue s) (rpmlo s) (rpmhi s)
    (taeamount s) (gammae s) (ve s) (afrtarget s) (pw1lo s) (pw1hi s)
    (tpsdot s) (advance s) (tps s) (loopslo s) (loopshi s) (freeramlo s)
    (freeramhi s) (boosttarget s) (boostduty s) (spark s) v (rpmdothi s)
    (ethanolpct s) (flexcorrection s) (flexigncorrection s) (idleload s)
    (testoutputs s) (o2_2 s) (baro s) (canin s) (tpsadc s) (errors s)
    (unused1 s) (unused2 s) (unused3 s).

Definition set_rpmdothi (v : Z) (s : EngineStatus) : EngineStatus :=
  mkEngineStatus (response s) (secl s) (status1 s) (engine s) (dwell s)
    (maplo s) (maphi s) (iat s) (clt s) (batcorrection s) (batteryv s) (o2 s)
    (egocorrection s) (iatcorrection s) (wue s) (rpmlo s) (rpmhi s)
    (taeamount s) (gammae s) (ve s) (afrtarget s) (pw1lo s) (pw1hi s)
    (tpsdot s) (advance s) (tps s) (loopslo s) (loopshi s) (freeramlo s)
    (freeramhi s) (boosttarget s) (boostduty s) (spark s) (rpmdotlo s) v
    (ethanolpct s) (flexcorrection s) (flexigncorrection s) (idleload s)
    (testoutputs s) (o2_2 s) (baro s) (canin s) (tpsadc s) (errors s)
    (unused1 s) (unused2 s) (unused3 s).

Definition set_ethanolpct (v : Z) (s : EngineStatus) : EngineStatus :=
  mkEngineStatus (response s) (secl s) (status1 s) (engine s) (dwell s)
    (maplo s) (maphi s) (iat s) (clt s) (batcorrection s) (batteryv s) (o2 s)
    (egocorrection s) (iatcorrection s) (wue s) (rpmlo s) (rpmhi s)
    (taeamount s) (gammae s) (ve s) (afrtarget s) (pw1lo s) (pw1hi s)
    (tpsdot s) (advance s) (tps s) (loopslo s) (loopshi s) (freeramlo s)
    (freeramhi s) (boosttarget s) (boostduty s) (spark s) (rpmdotlo s)
    (rpmdothi s) v (flexcorrection s) (flexigncorrection s) (idleload s)
    (testoutputs s) (o2_2 s) (baro s) (canin s) (tpsadc s) (errors s)
    (unused1 s) (unused2 s) (unused3 s).

Definition set_flexcorrection (v : Z) (s : EngineStatus) : EngineStatus :=
  mkEngineStatus (response s) (secl s) (status1 s) (engine s) (dwell s)
    (maplo s) (maphi s) (iat s) (clt s) (batcorrection s) (batteryv s) (o2 s)
    (egocorrection s) (iatcorrection s) (wue s) (rpmlo s) (rpmhi s)
    (taeamount s) (gammae s) (ve s) (afrtarget s) (pw1lo s) (pw1hi s)
    (tpsdot s) (advance s) (tps s) (loopslo s) (loopshi s) (freeramlo s)
    (freeramhi s) (boosttarget s) (boostduty s) (spark s) (rpmdotlo s)
    (rpmdothi s) (ethanolpct s) v (flexigncorrection s) (idleload s)
    (testoutputs s) (o2_2 s) (baro s) (canin s) (tpsadc s) (errors s)
    (unused1 s) (unused2 s) (unused3 s).

Definition set_flexigncorrection (v : Z) (s : EngineStatus) : EngineStatus :=
  mkEngineStatus (response s) (secl s) (status1 s) (engine s) (dwell s)
    (maplo s) (maphi s) (iat s) (clt s) (batcorrection s) (batteryv s) (o2 s)
    (egocorrection s) (iatcorrection s) (wue s) (rpmlo s) (rpmhi s)
    (taeamount s) (gammae s) (ve s) (afrtarget s) (pw1lo s) (pw1hi s)
    (tpsdot s) (advance s) (tps s) (loopslo s) (loopshi s) (freeramlo s)
    (freeramhi s) (boosttarget s) (boostduty s) (spark s) (rpmdotlo s)
    (rpmdothi s) (ethanolpct s) (flexcorrection s) v (idleload s)
    (testoutputs s) (o2_2 s) (baro s) (canin s) (tpsadc s) (errors s)
    (unused1 s) (unused2 s) (unused3 s).

Definition set_idleload (v : Z) (s : EngineStatus) : EngineStatus :=
  mkEngineStatus (response s) (secl s) (status1 s) (engine s) (dwell s)
    (maplo s) (maphi s) (iat s) (clt s) (batcorrection s) (batteryv s) (o2 s)
    (egocorrection s) (iatcorrection s) (wue s) (rpmlo s) (rpmhi s)
    (taeamount s) (gammae s) (ve s) (afrtarget s) (pw1lo s) (pw1hi s)
    (tpsdot s) (advance s) (tps s) (loopslo s) (loopshi s) (freeramlo s)
    (freeramhi s) (boosttarget s) (boostduty s) (spark s) (rpmdotlo s)
    (rpmdothi s) (ethanolpct s) (flexcorrection s) (flexigncorrection s) v
    (testoutputs s) (o2_2 s) (baro s) (canin s) (tpsadc s) (errors s)
    (unused1 s) (unused2 s) (unused3 s).

Definition set_testoutputs (v : Z) (s : EngineStatus) : EngineStatus :=
  mkEngineStatus (response s) (secl s) (status1 s) (engine s) (dwell s)
    (maplo s) (maphi s) (iat s) (clt s) (batcorrection s) (batteryv s) (o2 s)
    (egocorrection s) (iatcorrection s) (wue s) (rpmlo s) (rpmhi s)
    (taeamount s) (gammae s) (ve s) (afrtarget s) (pw1lo s) (pw1hi s)
    (tpsdot s) (advance s) (tps s) (loopslo s) (loopshi s) (freeramlo s)
    (freeramhi s) (boosttarget s) (boostduty s) (spark s) (rpmdotlo s)
    (rpmdothi s) (ethanolpct s) (flexcorrection s) (flexigncorrection s)
    (idleload s) v (o2_2 s) (baro s) (canin s) (tpsadc s) (errors s)
    (unused1 s) (unused2 s) (unused3 s).

Definition set_o2_2 (v : Z) (s : EngineStatus) : EngineStatus :=
  mkEngineStatus (response s) (secl s) (status1 s) (engine s) (dwell s)
    (maplo s) (maphi s) (iat s) (clt s) (batcorrection s) (batteryv s) (o2 s)
    (egocorrection s) (iatcorrection s) (wue s) (rpmlo s) (rpmhi s)
    (taeamount s) (gammae s) (ve s) (afrtarget s) (pw1lo s) (pw1hi s)
    (tpsdot s) (advance s) (tps s) (loopslo s) (loopshi s) (freeramlo s)
    (freeramhi s) (boosttarget s) (boostduty s) (spark s) (rpmdotlo s)
    (rpmdothi s) (ethanolpct s) (flexcorrection s) (flexigncorrection s)
    (idleload s) (testoutputs s) v (baro s) (canin s) (tpsadc s) (errors s)
    (unused1 s) (unused2 s) (unused3 s).

Definition set_baro (v : Z) (s : EngineStatus) : EngineStatus :=
  mkEngineStatus (response s) (secl s) (status1 s) (engine s) (dwell s)
    (maplo s) (maphi s) (iat s) (clt s) (batcorrection s) (batteryv s) (o2 s)
    (egocorrection s) (iatcorrection s) (wue s) (rpmlo s) (rpmhi s)
    (taeamount s) (gammae s) (ve s) (afrtarget s) (pw1lo s) (pw1hi s)
    (tpsdot s) (advance s) (tps s) (loopslo s) (loopshi s) (freeramlo s)
    (freeramhi s) (boosttarget s) (boostduty s) (spark s) (rpmdotlo s)
    (rpmdothi s) (ethanolpct s) (flexcorrection s) (flexigncorrection s)
    (idleload s) (testoutputs s) (o2_2 s) v (canin s) (tpsadc s) (errors s)
    (unused1 s) (unused2 s) (unused3 s).

Definition set_canin (v : nat -> Z) (s : EngineStatus) : EngineStatus :=
  mkEngineStatus (response s) (secl s) (status1 s) (engine s) (dwell s)
    (maplo s) (maphi s) (iat s) (clt s) (batcorrection s) (batteryv s) (o2 s)
    (egocorrection s) (iatcorrection s) (wue s) (rpmlo s) (rpmhi s)
    (taeamount s) (gammae s) (ve s) (afrtarget s) (pw1lo s) (pw1hi s)
    (tpsdot s) (advance s) (tps s) (loopslo s) (loopshi s) (freeramlo s)
    (freeramhi s) (boosttarget s) (boostduty s) (spark s) (rpmdotlo s)
    (rpmdothi s) (ethanolpct s) (flexcorrection s) (flexigncorrection s)
    (idleload s) (testoutputs s) (o2_2 s) (baro s) v (tpsadc s) (errors s)
    (unused1 s) (unused2 s) (unused3 s).

Definition set_tpsadc (v : Z) (s : EngineStatus) : EngineStatus :=
  mkEngineStatus (response s) (secl s) (status1 s) (engine s) (dwell s)
    (maplo s) (maphi s) (iat s) (clt s) (batcorrection s) (batteryv s) (o2 s)
    (egocorrection s) (iatcorrection s) (wue s) (rpmlo s) (rpmhi s)
    (taeamount s) (gammae s) (ve s) (afrtarget s) (pw1lo s) (pw1hi s)
    (tpsdot s) (advance s) (tps s) (loopslo s) (loopshi s) (freeramlo s)
    (freeramhi s) (boosttarget s) (boostduty s) (spark s) (rpmdotlo s)
    (rpmdothi s) (ethanolpct s) (flexcorrection s) (flexigncorrection s)
    (idleload s) (testoutputs s) (o2_2 s) (baro s) (canin s) v (errors s)
    (unused1 s) (unused2 s) (unused3 s).

Definition set_errors (v : Z) (s : EngineStatus) : EngineStatus :=
  mkEngineStatus (response s) (secl s) (status1 s) (engine s) (dwell s)
    (maplo s) (maphi s) (iat s) (clt s) (batcorrection s) (batteryv s) (o2 s)
    (egocorrection s) (iatcorrection s) (wue s) (rpmlo s) (rpmhi s)
    (taeamount s) (gammae s) (ve s) (afrtarget s) (pw1lo s) (pw1hi s)
    (tpsdot s) (advance s) (tps s) (loopslo s) (loopshi s) (freeramlo s)
    (freeramhi s) (boosttarget s) (boostduty s) (spark s) (rpmdotlo s)
    (rpmdothi s) (ethanolpct s) (flexcorrection s) (flexigncorrection s)
    (idleload s) (testoutputs s) (o2_2 s) (baro s) (canin s) (tpsadc s) v
    (unused1 s) (unused2 s) (unused3 s).

(** [memset(&status, 0, sizeof(EngineStatus))]. *)
Definition zero_status : EngineStatus :=
  mkEngineStatus 0 0 0 0 0 0 0 0 0 0 0 0 0 0 0 0 0 0 0 0 0 0 0 0 0 0 0 0 0 0
    0 0 0 0 0 0 0 0 0 0 0 0 (fun _ => 0) 0 0 0 0 0.

(** [canin[i] = v]. *)
Definition canin_store (i : nat) (v : Z) (s : EngineStatus) : EngineStatus :=
  set_canin (fun j => if Nat.eqb j i then v else canin s j) s.

(** The bytes of the packed struct in memory order, as
    [(const uint8_t* )&status] exposes them. *)
Definition to_bytes (s : EngineStatus) : list Z :=
  [response s; secl s; status1 s; engine s; dwell s; maplo s; maphi s;
   iat s; clt s; batcorrection s; batteryv s; o2 s; egocorrection s;
   iatcorrection s; wue s; rpmlo s; rpmhi s; taeamount s; gammae s; ve s;
   afrtarget s; pw1lo s; pw1hi s; tpsdot s; advance s; tps s; loopslo s;
   loopshi s; freeramlo s; freeramhi s; boosttarget s; boostduty s; spark s;
   rpmdotlo s; rpmdothi s; ethanolpct s; flexcorrection s;
   flexigncorrection s; idleload s; testoutputs s; o2_2 s; baro s]
  ++ List.map (canin s) (seq 0 32)
  ++ [tpsadc s; errors s; unused1 s; unused2 s; unused3 s].

(** Helper methods of the struct.  A [uint16_t] or [int16_t] argument is
    promoted to [int] before [&] and [>>]; [>>] on a negative [int] is the
    arithmetic shift. *)

Definition setRPM (rpm : Z) (s : EngineStatus) : EngineStatus :=
  set_rpmhi (Z.land (Z.shiftr rpm 8) 255) (set_rpmlo (Z.land rpm 255) s).

Definition getRPM (s : EngineStatus) : Z :=
  to_u16 (Z.lor (Z.shiftl (to_u16 (rpmhi s)) 8) (rpmlo s)).

Definition setMAP (map : Z) (s : EngineStatus) : EngineStatus :=
  set_maphi (Z.land (Z.shiftr map 8) 255) (set_maplo (Z.land map 255) s).

Definition getMAP (s : EngineStatus) : Z :=
  to_u16 (Z.lor (Z.shiftl (to_u16 (maphi s)) 8) (maplo s)).

Definition setPulseWidth (pw : Z) (s : EngineStatus) : EngineStatus :=
  set_pw1hi (Z.land (Z.shiftr pw 8) 255) (set_pw1lo (Z.land pw 255) s).

Definition getPulseWidth (s : EngineStatus) : Z :=
  to_u16 (Z.lor (Z.shiftl (to_u16 (pw1hi s)) 8) (pw1lo s)).

Definition setRPMDot (rpmdot : Z) (s : EngineStatus) : EngineStatus :=
  set_rpmdothi (Z.land (Z.shiftr rpmdot 8) 255)
    (set_rpmdotlo (Z.land rpmdot 255) s).

Definition getRPMDot (s : EngineStatus) : Z :=
  to_i16 (Z.lor (Z.shiftl (to_i16 (rpmdothi s)) 8) (rpmdotlo s)).

(** The temperature setters take an [int8_t]: the caller's [int] argument
    is converted on the way in, and the getters return an [int8_t]. *)

Definition setCoolantTemp (celsius : Z) (s : EngineStatus) : EngineStatus :=
  set_clt (to_u8 (to_i8 celsius + 40)) s.

Definition getCoolantTemp (s : EngineStatus) : Z :=
  to_i8 (to_i8 (clt s) - 40).

Definition setIntakeTemp (celsius : Z) (s : EngineStatus) : EngineStatus :=
  set_iat (to_u8 (to_i8 celsius + 40)) s.

Definition getIntakeTemp (s : EngineStatus) : Z :=
  to_i8 (to_i8 (iat s) - 40).

(** ** Hardware abstraction: ITimeProvider.h, IRandomProvider.h, ISerialInterface.h

    Each provider is an interface whose calls may change the provider; a
    call is a function from the state of the outside world to a result and
    the next state. *)

Definition M (E A : Type) : Type := E -> A * E.

Definition ret {E A : Type} (a : A) : M E A := fun e => (a, e).

Definition bind {E A B : Type} (m : M E A) (k : A -> M E B) : M E B :=
  fun e => let (a, e') := m e in k a e'.

Notation "x <- m ;; k" := (bind m (fun x => k))
  (at level 61, m at next level, right associativity).

Class ITimeProvider (E : Type) : Type := {
  millis : M E Z                      (* uint32_t millis() *)
}.

Class IRandomProvider (E : Type) : Type := {
  seed : Z -> M E unit;               (* void seed(uint32_t) *)
  random_range : Z -> Z -> M E Z;     (* int32_t random(min, max): [min, max) *)
  random_max : Z -> M E Z             (* int32_t random(max): [0, max) *)
}.

Class ISerialInterface (T : Type) : Type := {
  serial_begin : Z -> M T unit;       (* void begin(uint32_t baudRate) *)
  available : M T Z;                  (* int available() *)
  read : M T Z;                       (* int read(): the byte, or -1 *)
  write : list Z -> M T Z;            (* size_t write(buffer, length) *)
  flush : M T unit                    (* void flush() *)
}.

(** ** EngineSimulator.h *)

Inductive EngineMode : Type :=
| STARTUP
| WARMUP_IDLE
| IDLE
| LIGHT_LOAD
| ACCELERATION
| HIGH_RPM
| DECELERATION
| WOT.

Definition EngineMode_eqb (a b : EngineMode) : bool :=
  match a, b with
  | STARTUP, STARTUP | WARMUP_IDLE, WARMUP_IDLE | IDLE, IDLE
  | LIGHT_LOAD, LIGHT_LOAD | ACCELERATION, ACCELERATION
  | HIGH_RPM, HIGH_RPM | DECELERATION, DECELERATION | WOT, WOT => true
  | _, _ => false
  end.

(** The private members of the class. *)

Record EngineSimulator : Type := mkEngineSimulator {
  status : EngineStatus;
  currentMode : EngineMode;
  lastUpdateTime : Z;  (* uint32_t *)
  stateStartTime : Z;  (* uint32_t *)
  engineStartTime : Z;  (* uint32_t *)
  targetRPM : Z;  (* uint16_t *)
  currentRPM : Z;  (* uint16_t *)
  rpmAcceleration : Z;  (* int16_t, RPM/s *)
  targetThrottle : Z;  (* uint8_t *)
  currentThrottle : Z;  (* uint8_t *)
  coolantTemp : Z;  (* int16_t, degrees C * 10 *)
  intakeTemp : Z;  (* int16_t, degrees C * 10 *)
  exhaustTemp : Z;  (* int16_t *)
  pulseWidth : Z;  (* uint16_t, 0.1 ms units *)
  injectorDutyCycle : Z;  (* uint8_t *)
  loopCounter : Z;  (* uint32_t *)
  secondCounter : Z  (* uint16_t *)
}.

Definition set_status (v : EngineStatus) (s : EngineSimulator) : EngineSimulator :=
  mkEngineSimulator v (currentMode s) (lastUpdateTime s) (stateStartTime s)
    (engineStartTime s) (targetRPM s) (currentRPM s) (rpmAcceleration s)
    (targetThrottle s) (currentThrottle s) (coolantTemp s) (intakeTemp s)
    (exhaustTemp s) (pulseWidth s) (injectorDutyCycle s) (loopCounter s)
    (secondCounter s).

Definition set_currentMode (v : EngineMode) (s : EngineSimulator) : EngineSimulator :=
  mkEngineSimulator (status s) v (lastUpdateTime s) (stateStartTime s)
    (engineStartTime s) (targetRPM s) (currentRPM s) (rpmAcceleration s)
    (targetThrottle s) (currentThrottle s) (coolantTemp s) (intakeTemp s)
    (exhaustTemp s) (pulseWidth s) (injectorDutyCycle s) (loopCounter s)
    (secondCounter s).

Definition set_lastUpdateTime (v : Z) (s : EngineSimulator) : EngineSimulator :=
  mkEngineSimulator (status s) (currentMode s) v (stateStartTime s)
    (engineStartTime s) (targetRPM s) (currentRPM s) (rpmAcceleration s)
    (targetThrottle s) (currentThrottle s) (coolantTemp s) (intakeTemp s)
    (exhaustTemp s) (pulseWidth s) (injectorDutyCycle s) (loopCounter s)
    (secondCounter s).

Definition set_stateStartTime (v : Z) (s : EngineSimulator) : EngineSimulator :=
  mkEngineSimulator (status s) (currentMode s) (lastUpdateTime s) v
    (engineStartTime s) (targetRPM s) (currentRPM s) (rpmAcceleration s)
    (targetThrottle s) (currentThrottle s) (coolantTemp s) (intakeTemp s)
    (exhaustTemp s) (pulseWidth s) (injectorDutyCycle s) (loopCounter s)
    (secondCounter s).

Definition set_engineStartTime (v : Z) (s : EngineSimulator) : EngineSimulator :=
  mkEngineSimulator (status s) (currentMode s) (lastUpdateTime s)
    (stateStartTime s) v (targetRPM s) (currentRPM s) (rpmAcceleration s)
    (targetThrottle s) (currentThrottle s) (coolantTemp s) (intakeTemp s)
    (exhaustTemp s) (pulseWidth s) (injectorDutyCycle s) (loopCounter s)
    (secondCounter s).

Definition set_targetRPM (v : Z) (s : EngineSimulator) : EngineSimulator :=
  mkEngineSimulator (status s) (currentMode s) (lastUpdateTime s)
    (stateStartTime s) (engineStartTime s) v (currentRPM s)
    (rpmAcceleration s) (targetThrottle s) (currentThrottle s) (coolantTemp s)
    (intakeTemp s) (exhaustTemp s) (pulseWidth s) (injectorDutyCycle s)
    (loopCounter s) (secondCounter s).

Definition set_currentRPM (v : Z) (s : EngineSimulator) : EngineSimulator :=
  mkEngineSimulator (status s) (currentMode s) (lastUpdateTime s)
    (stateStartTime s) (engineStartTime s) (targetRPM s) v (rpmAcceleration s)
    (targetThrottle s) (currentThrottle s) (coolantTemp s) (intakeTemp s)
    (exhaustTemp s) (pulseWidth s) (injectorDutyCycle s) (loopCounter s)
    (secondCounter s).

Definition set_rpmAcceleration (v : Z) (s : EngineSimulator) : EngineSimulator :=
  mkEngineSimulator (status s) (currentMode s) (lastUpdateTime s)
    (stateStartTime s) (engineStartTime s) (targetRPM s) (currentRPM s) v
    (targetThrottle s) (currentThrottle s) (coolantTemp s) (intakeTemp s)
    (exhaustTemp s) (pulseWidth s) (injectorDutyCycle s) (loopCounter s)
    (secondCounter s).

Definition set_targetThrottle (v : Z) (s : EngineSimulator) : EngineSimulator :=
  mkEngineSimulator (status s) (currentMode s) (lastUpdateTime s)
    (stateStartTime s) (engineStartTime s) (targetRPM s) (currentRPM s)
    (rpmAcceleration s) v (currentThrottle s) (coolantTemp s) (intakeTemp s)
    (exhaustTemp s) (pulseWidth s) (injectorDutyCycle s) (loopCounter s)
    (secondCounter s).

Definition set_currentThrottle (v : Z) (s : EngineSimulator) : EngineSimulator :=
  mkEngineSimulator (status s) (currentMode s) (lastUpdateTime s)
    (stateStartTime s) (engineStartTime s) (targetRPM s) (currentRPM s)
    (rpmAcceleration s) (targetThrottle s) v (coolantTemp s) (intakeTemp s)
    (exhaustTemp s) (pulseWidth s) (injectorDutyCycle s) (loopCounter s)
    (secondCounter s).

Definition set_coolantTemp (v : Z) (s : EngineSimulator) : EngineSimulator :=
  mkEngineSimulator (status s) (currentMode s) (lastUpdateTime s)
    (stateStartTime s) (engineStartTime s) (targetRPM s) (currentRPM s)
    (rpmAcceleration s) (targetThrottle s) (currentThrottle s) v
    (intakeTemp s) (exhaustTemp s) (pulseWidth s) (injectorDutyCycle s)
    (loopCounter s) (secondCounter s).

Definition set_intakeTemp (v : Z) (s : EngineSimulator) : EngineSimulator :=
  mkEngineSimulator (status s) (currentMode s) (lastUpdateTime s)
    (stateStartTime s) (engineStartTime s) (targetRPM s) (currentRPM s)
    (rpmAcceleration s) (targetThrottle s) (currentThrottle s) (coolantTemp s)
    v (exhaustTemp s) (pulseWidth s) (injectorDutyCycle s) (loopCounter s)
    (secondCounter s).

Definition set_exhaustTemp (v : Z) (s : EngineSimulator) : EngineSimulator :=
  mkEngineSimulator (status s) (currentMode s) (lastUpdateTime s)
    (stateStartTime s) (engineStartTime s) (targetRPM s) (currentRPM s)
    (rpmAcceleration s) (targetThrottle s) (currentThrottle s) (coolantTemp s)
    (intakeTemp s) v (pulseWidth s) (injectorDutyCycle s) (loopCounter s)
    (secondCounter s).

Definition set_pulseWidth (v : Z) (s : EngineSimulator) : EngineSimulator :=
  mkEngineSimulator (status s) (currentMode s) (lastUpdateTime s)
    (stateStartTime s) (engineStartTime s) (targetRPM s) (currentRPM s)
    (rpmAcceleration s) (targetThrottle s) (currentThrottle s) (coolantTemp s)
    (intakeTemp s) (exhaustTemp s) v (injectorDutyCycle s) (loopCounter s)
    (secondCounter s).

Definition set_injectorDutyCycle (v : Z) (s : EngineSimulator) : EngineSimulator :=
  mkEngineSimulator (status s) (currentMode s) (lastUpdateTime s)
    (stateStartTime s) (engineStartTime s) (targetRPM s) (currentRPM s)
    (rpmAcceleration s) (targetThrottle s) (currentThrottle s) (coolantTemp s)
    (intakeTemp s) (exhaustTemp s) (pulseWidth s) v (loopCounter s)
    (secondCounter s).

Definition set_loopCounter (v : Z) (s : EngineSimulator) : EngineSimulator :=
  mkEngineSimulator (status s) (currentMode s) (lastUpdateTime s)
    (stateStartTime s) (engineStartTime s) (targetRPM s) (currentRPM s)
    (rpmAcceleration s) (targetThrottle s) (currentThrottle s) (coolantTemp s)
    (intakeTemp s) (exhaustTemp s) (pulseWidth s) (injectorDutyCycle s) v
    (secondCounter s).

Definition set_secondCounter (v : Z) (s : EngineSimulator) : EngineSimulator :=
  mkEngineSimulator (status s) (currentMode s) (lastUpdateTime s)
    (stateStartTime s) (engineStartTime s) (targetRPM s) (currentRPM s)
    (rpmAcceleration s) (targetThrottle s) (currentThrottle s) (coolantTemp s)
    (intakeTemp s) (exhaustTemp s) (pulseWidth s) (injectorDutyCycle s)
    (loopCounter s) v.

(** [status.f = v] and calls of the struct's helper methods. *)
Definition upd_status (f : EngineStatus -> EngineStatus)
    (s : EngineSimulator) : EngineSimulator :=
  set_status (f (status s)) s.

(** ** EngineSimulator.cpp *)

(** *** Function-local statics

    [simulateThrottle] and [simulateCorrections] each declare a [static]
    local.  Such a variable is one cell of the program, not of the
    object: it is initialised once, every simulator reads and writes the
    same cell, and neither the constructor nor [initialize] touches
    it. *)

Record Statics : Type := mkStatics {
  lastTPS : Z;  (* static uint8_t lastTPS = 0, in simulateThrottle *)
  egoTrend : Z  (* static int8_t egoTrend = 1, in simulateCorrections *)
}.

Definition set_lastTPS (v : Z) (k : Statics) : Statics :=
  mkStatics v (egoTrend k).

Definition set_egoTrend (v : Z) (k : Statics) : Statics :=
  mkStatics (lastTPS k) v.

(** The statics when the program starts. *)
Definition statics_at_start : Statics := mkStatics 0 1.

(** *** Pure helper functions *)

Definition calculateVE (rpm tps : Z) : Z :=
  let baseVE :=
    if rpm <? 1000 then 45
    else if rpm <? 2000 then to_u8 (55 + cdiv (rpm - 1000) 50)
    else if rpm <? 4000 then to_u8 (75 + cdiv (rpm - 2000) 100)
    else if rpm <? 5500 then to_u8 (85 + cdiv (rpm - 4000) 200)
    else to_u8 (90 - cdiv (rpm - 5500) 100) in
  let baseVE := to_u8 (cdiv (baseVE * (50 + cdiv tps 2)) 100) in
  let baseVE := if 100 <? baseVE then 100 else baseVE in
  let baseVE := if baseVE <? 30 then 30 else baseVE in
  baseVE.

Definition calculateIgnitionAdvance (rpm load : Z) : Z :=
  let baseAdvance := TIMING_IDLE in
  let baseAdvance :=
    if 1000 <? rpm then to_u8 (baseAdvance + cdiv (rpm - 1000) 200)
    else baseAdvance in
  let baseAdvance :=
    if 80 <? load then to_u8 (baseAdvance - cdiv (load - 80) 4)
    else if load <? 40 then to_u8 (baseAdvance + cdiv (40 - load) 8)
    else baseAdvance in
  let baseAdvance :=
    if TIMING_MAX <? baseAdvance then TIMING_MAX else baseAdvance in
  let baseAdvance := if baseAdvance <? 5 then 5 else baseAdvance in
  baseAdvance.

(** [pw] is a [uint32_t]: the product wraps at 32 bits and [rpm + 1] is
    converted to unsigned before the division. *)
Definition calculateRequiredPulseWidth (rpm map ve : Z) : Z :=
  let pw := to_u32 (map * ve * 1000) in
  let pw := cdiv pw (to_u32 (rpm + 1)) in
  let pw := cdiv pw 10 in
  let pw := if pw <? PW_MIN then PW_MIN else pw in
  let pw := if PW_MAX <? pw then PW_MAX else pw in
  to_u16 pw.

Definition getWarmupEnrichment (coolantTemp : Z) : Z :=
  let tempC := to_i16 (cdiv coolantTemp 10) in
  if tempC <? 0 then 140
  else if tempC <? 20 then 130
  else if tempC <? 40 then 120
  else if tempC <? 60 then 110
  else 100.

Definition interpolate (current target rate : Z) : Z :=
  let delta := to_i16 (target - current) in
  let maxChange := to_i16 (cdiv (delta * rate) 100) in
  let maxChange :=
    if (maxChange =? 0) && negb (delta =? 0)
    then (if 0 <? delta then 1 else -1)
    else maxChange in
  to_i16 (current + maxChange).

Definition mapValue (x in_min in_max out_min out_max : Z) : Z :=
  to_u16 (cdiv ((x - in_min) * (out_max - out_min)) (in_max - in_min)
          + out_min).

Section Simulator.

Context {E : Type} {TP : ITimeProvider E} {RP : IRandomProvider E}.

(** [SENSOR_NOISE_ENABLED] is 1. *)
Definition addNoise (value range : Z) : M E Z :=
  r <- random_range (- range) (range + 1) ;;
  ret (to_i8 (value + r)).

(** The constructor's initialiser list; [status] holds whatever the
    memory held.  The statics are not members and are left as they
    are. *)
Definition EngineSimulator_new (mem : EngineStatus) : M E EngineSimulator :=
  t <- millis ;;
  _ <- seed t ;;
  ret (mkEngineSimulator mem STARTUP 0 0 0 0 0 0 0 0
         TEMP_AMBIENT TEMP_AMBIENT TEMP_AMBIENT 0 0 0 0).

Definition initialize (s : EngineSimulator) : M E EngineSimulator :=
  let s := set_status zero_status s in
  let s := upd_status (set_response 65) s in
  let s := set_currentMode STARTUP s in
  t <- millis ;;
  let s := set_engineStartTime t s in
  let s := set_lastUpdateTime (engineStartTime s) s in
  let s := set_stateStartTime (engineStartTime s) s in
  let s := set_currentRPM 0 s in
  let s := set_targetRPM (RPM_IDLE_MIN + 200) s in
  let s := set_coolantTemp TEMP_AMBIENT s in
  let s := set_intakeTemp TEMP_AMBIENT s in
  let s := set_exhaustTemp TEMP_AMBIENT s in
  let s := set_currentThrottle TPS_IDLE s in
  let s := set_targetThrottle TPS_IDLE s in
  let s := upd_status (setRPM (currentRPM s)) s in
  let s := upd_status (setCoolantTemp (cdiv (coolantTemp s) 10)) s in
  let s := upd_status (setIntakeTemp (cdiv (intakeTemp s) 10)) s in
  let s := upd_status (setMAP MAP_ATMOSPHERIC) s in
  let s := upd_status (set_batteryv (cdiv VOLTAGE_NORMAL 10)) s in
  let s := upd_status (set_baro BARO_SEALEVEL) s in
  let s := upd_status (set_tps (currentThrottle s)) s in
  let s := set_loopCounter 0 s in
  let s := set_secondCounter 0 s in
  ret s.

Definition transitionToMode (newMode : EngineMode) (s : EngineSimulator)
    : M E EngineSimulator :=
  let s := set_currentMode newMode s in
  t <- millis ;;
  let s := set_stateStartTime t s in
  match newMode with
  | STARTUP =>
      let s := set_targetRPM (RPM_IDLE_MIN + 200) s in
      let s := set_targetThrottle (TPS_IDLE + 5) s in
      ret (set_rpmAcceleration 500 s)
  | WARMUP_IDLE =>
      let s := set_targetRPM (RPM_IDLE_MIN + 150) s in
      let s := set_targetThrottle (TPS_IDLE + 3) s in
      ret (set_rpmAcceleration 100 s)
  | IDLE =>
      r <- random_range (-50) 50 ;;
      let s := set_targetRPM (to_u16 (RPM_IDLE_MIN + r)) s in
      let s := set_targetThrottle TPS_IDLE s in
      ret (set_rpmAcceleration 50 s)
  | LIGHT_LOAD =>
      r <- random_range (-300) 300 ;;
      let s := set_targetRPM (to_u16 (RPM_CRUISE + r)) s in
      r <- random_range (-5) 10 ;;
      let s := set_targetThrottle (to_u8 (TPS_CRUISE + r)) s in
      ret (set_rpmAcceleration 200 s)
  | ACCELERATION =>
      r <- random_range (-500) 500 ;;
      let s := set_targetRPM (to_u16 (RPM_HIGH_START + r)) s in
      r <- random_range 10 40 ;;
      let s := set_targetThrottle (to_u8 (TPS_HALF + r)) s in
      ret (set_rpmAcceleration 1000 s)
  | HIGH_RPM =>
      r <- random_range 100 500 ;;
      let s := set_targetRPM (to_u16 (RPM_REDLINE - r)) s in
      r <- random_range 0 20 ;;
      let s := set_targetThrottle (to_u8 (TPS_WOT - r)) s in
      ret (set_rpmAcceleration 500 s)
  | DECELERATION =>
      r <- random_range 0 500 ;;
      let s := set_targetRPM (to_u16 (RPM_IDLE_MAX + r)) s in
      let s := set_targetThrottle TPS_IDLE s in
      ret (set_rpmAcceleration (-800) s)
  | WOT =>
      let s := set_targetRPM RPM_REDLINE s in
      let s := set_targetThrottle TPS_WOT s in
      ret (set_rpmAcceleration 1500 s)
  end.

Definition updateStateMachine (s : EngineSimulator) : M E EngineSimulator :=
  t <- millis ;;
  let timeInState := to_u32 (t - stateStartTime s) in
  match currentMode s with
  | STARTUP =>
      if 1000 <? timeInState then
        if cdiv RPM_IDLE_MIN 2 <? currentRPM s
        then transitionToMode WARMUP_IDLE s
        else ret s
      else ret s
  | WARMUP_IDLE =>
      if 600 <? coolantTemp s then transitionToMode IDLE s else ret s
  | IDLE =>
      if STATE_TRANSITION_MS <? timeInState then
        rand <- random_max 100 ;;
        if rand <? 30 then transitionToMode LIGHT_LOAD s
        else if rand <? 35 then transitionToMode ACCELERATION s
        else ret s
      else ret s
  | LIGHT_LOAD =>
      if STATE_TRANSITION_MS <? timeInState then
        rand <- random_max 100 ;;
        if rand <? 40 then transitionToMode ACCELERATION s
        else if rand <? 70 then transitionToMode DECELERATION s
        else transitionToMode IDLE s
      else ret s
  | ACCELERATION =>
      if RPM_HIGH_START <? currentRPM s then transitionToMode HIGH_RPM s
      else if 3000 <? timeInState then
        rand <- random_max 100 ;;
        if rand <? 30 then transitionToMode LIGHT_LOAD s else ret s
      else ret s
  | HIGH_RPM =>
      if 2000 <? timeInState then transitionToMode DECELERATION s
      else ret s
  | DECELERATION =>
      if currentRPM s <? RPM_IDLE_MAX + 200 then transitionToMode IDLE s
      else ret s
  | WOT =>
      if (3000 <? timeInState) || (RPM_REDLINE <? currentRPM s)
      then transitionToMode HIGH_RPM s
      else ret s
  end.

(** *** Physics stages, in the order [update] runs them *)

Definition simulateRPM (s : EngineSimulator) : M E EngineSimulator :=
  let s :=
    if currentRPM s <? targetRPM s then
      let delta :=
        to_i16 (cdiv (rpmAcceleration s * UPDATE_INTERVAL_MS) 1000) in
      let s := set_currentRPM (to_u16 (currentRPM s + delta)) s in
      if targetRPM s <? currentRPM s
      then set_currentRPM (targetRPM s) s else s
    else if targetRPM s <? currentRPM s then
      let delta :=
        to_i16 (cdiv (rpmAcceleration s * UPDATE_INTERVAL_MS) 1000) in
      let s := set_currentRPM (to_u16 (currentRPM s + delta)) s in
      if currentRPM s <? targetRPM s
      then set_currentRPM (targetRPM s) s else s
    else s in
  let s :=
    if to_i16 (currentRPM s) <? RPM_MIN
    then set_currentRPM RPM_MIN s else s in
  let s :=
    if RPM_MAX <? currentRPM s then set_currentRPM RPM_MAX s else s in
  s <- (if EngineMode_eqb (currentMode s) IDLE
           || EngineMode_eqb (currentMode s) WARMUP_IDLE
        then r <- random_range (-10) 10 ;;
             ret (set_currentRPM (to_u16 (currentRPM s + r)) s)
        else ret s) ;;
  let s := upd_status (setRPM (currentRPM s)) s in
  let s := upd_status (setRPMDot (rpmAcceleration s)) s in
  ret s.

Definition simulateThermal (s : EngineSimulator) : EngineSimulator :=
  let targetCoolantTemp :=
    if EngineMode_eqb (currentMode s) WOT
       || EngineMode_eqb (currentMode s) HIGH_RPM
    then TEMP_ENGINE_HOT
    else if EngineMode_eqb (currentMode s) IDLE
            || EngineMode_eqb (currentMode s) WARMUP_IDLE
    then TEMP_ENGINE_WARM - 50
    else TEMP_ENGINE_WARM in
  let s :=
    set_coolantTemp (interpolate (coolantTemp s) targetCoolantTemp 5) s in
  let s := upd_status (setCoolantTemp (cdiv (coolantTemp s) 10)) s in
  let targetIntakeTemp :=
    to_i16 (TEMP_AMBIENT + cdiv (coolantTemp s - TEMP_AMBIENT) 4) in
  let targetIntakeTemp :=
    if RPM_CRUISE <? currentRPM s
    then to_i16 (targetIntakeTemp - cdiv (currentRPM s - RPM_CRUISE) 50)
    else targetIntakeTemp in
  let s :=
    set_intakeTemp (interpolate (intakeTemp s) targetIntakeTemp 10) s in
  let s := upd_status (setIntakeTemp (cdiv (intakeTemp s) 10)) s in
  s.

Definition simulateThrottle (s : EngineSimulator) (k : Statics)
    : M E (EngineSimulator * Statics) :=
  let s :=
    set_currentThrottle
      (to_u8 (interpolate (currentThrottle s) (targetThrottle s) 20)) s in
  n <- addNoise 0 1 ;;
  let noisyThrottle := to_i8 (currentThrottle s + n) in
  let noisyThrottle := if noisyThrottle <? 0 then 0 else noisyThrottle in
  let noisyThrottle :=
    if 100 <? noisyThrottle then 100 else noisyThrottle in
  let s := upd_status (set_tps (to_u8 noisyThrottle)) s in
  let s :=
    upd_status (set_tpsadc (to_u8 (cdiv (noisyThrottle * 255) 100))) s in
  let tpsDelta := to_i16 (tps (status s) - lastTPS k) in
  let s :=
    upd_status
      (set_tpsdot (to_u8 (tpsDelta * cdiv 1000 UPDATE_INTERVAL_MS))) s in
  let k := set_lastTPS (tps (status s)) k in
  ret (s, k).

Definition simulateMAP (s : EngineSimulator) : M E EngineSimulator :=
  let baseMAP :=
    if currentThrottle s <? 10 then
      to_u16 (MAP_IDLE + cdiv (currentRPM s - RPM_IDLE_MIN) 20)
    else if 80 <? currentThrottle s then
      to_u16 (MAP_WOT - cdiv (RPM_MAX - currentRPM s) 100)
    else
      mapValue (currentThrottle s) 10 80 (MAP_IDLE + 10) (MAP_WOT - 5) in
  let baseMAP :=
    if RPM_HIGH_START <? currentRPM s
    then to_u16 (baseMAP + cdiv (currentRPM s - RPM_HIGH_START) 100)
    else baseMAP in
  n <- addNoise 0 2 ;;
  let noisyMAP := to_u16 (baseMAP + n) in
  let noisyMAP :=
    if MAP_ATMOSPHERIC <? noisyMAP then MAP_ATMOSPHERIC else noisyMAP in
  ret (upd_status (setMAP noisyMAP) s).

Definition simulateFuel (s : EngineSimulator) : EngineSimulator :=
  let s :=
    upd_status (set_ve (calculateVE (currentRPM s) (currentThrottle s))) s in
  let map := getMAP (status s) in
  let s :=
    set_pulseWidth
      (calculateRequiredPulseWidth (currentRPM s) map (ve (status s))) s in
  let wue' := getWarmupEnrichment (coolantTemp s) in
  let s := set_pulseWidth (to_u16 (cdiv (pulseWidth s * wue') 100)) s in
  let s := upd_status (set_wue wue') s in
  let correctedPW :=
    to_u16 (cdiv (pulseWidth s * egocorrection (status s)) 100) in
  let correctedPW :=
    to_u16 (cdiv (correctedPW * iatcorrection (status s)) 100) in
  let correctedPW := if correctedPW <? PW_MIN then PW_MIN else correctedPW in
  let correctedPW := if PW_MAX <? correctedPW then PW_MAX else correctedPW in
  let s := upd_status (setPulseWidth correctedPW) s in
  let s :=
    if 10 <? tpsdot (status s)
    then upd_status
           (set_taeamount (to_u8 (100 + cdiv (tpsdot (status s)) 2))) s
    else upd_status (set_taeamount 100) s in
  let s :=
    upd_status
      (set_gammae
         (to_u8 (cdiv (egocorrection (status s) * iatcorrection (status s)
                       * wue (status s)) 10000))) s in
  s.

Definition simulateIgnition (s : EngineSimulator) : EngineSimulator :=
  let load := to_u8 (cdiv (getMAP (status s) * 100) MAP_ATMOSPHERIC) in
  let s :=
    upd_status
      (set_advance (calculateIgnitionAdvance (currentRPM s) load)) s in
  let baseDwell := 35 in
  let baseDwell := if batteryv (status s) <? 12 then 45 else baseDwell in
  let s := upd_status (set_dwell baseDwell) s in
  let s := upd_status (set_spark 1) s in
  s.

Definition simulateAFR (s : EngineSimulator) : M E EngineSimulator :=
  let targetAFR :=
    match currentMode s with
    | STARTUP | WARMUP_IDLE => AFR_RICH
    | WOT | ACCELERATION => AFR_WOT
    | DECELERATION => AFR_LEAN
    | _ => AFR_STOICH
    end in
  let s := upd_status (set_afrtarget targetAFR) s in
  let lambda := to_u16 (cdiv (targetAFR * 100) 147) in
  let s := upd_status (set_o2 (to_u8 (mapValue lambda 50 150 0 255))) s in
  n <- addNoise 0 3 ;;
  let s := upd_status (set_o2_2 (to_u8 (o2 (status s) + n))) s in
  n <- addNoise 0 5 ;;
  let s := upd_status (set_o2 (to_u8 (o2 (status s) + n))) s in
  ret s.

Definition simulateCorrections (s : EngineSimulator) (k : Statics)
    : M E (EngineSimulator * Statics) :=
  let (s, k) :=
    if (500 <? coolantTemp s) && negb (EngineMode_eqb (currentMode s) WOT)
    then
      let s :=
        upd_status
          (set_egocorrection
             (to_u8 (egocorrection (status s) + egoTrend k))) s in
      let k :=
        if 110 <? egocorrection (status s) then set_egoTrend (-1) k
        else k in
      let k :=
        if egocorrection (status s) <? 90 then set_egoTrend 1 k else k in
      (s, k)
    else (upd_status (set_egocorrection 100) s, k) in
  let iatCelsius := to_i16 (cdiv (intakeTemp s) 10) in
  let s :=
    if iatCelsius <? 0 then upd_status (set_iatcorrection 110) s
    else if iatCelsius <? 10 then upd_status (set_iatcorrection 105) s
    else upd_status (set_iatcorrection 100) s in
  let s :=
    if batteryv (status s) <? 12
    then upd_status (set_batcorrection 105) s
    else upd_status (set_batcorrection 100) s in
  let s := upd_status (set_ethanolpct 0) s in
  let s := upd_status (set_flexcorrection 100) s in
  let s := upd_status (set_flexigncorrection 0) s in
  s <- (if EngineMode_eqb (currentMode s) IDLE
        then r <- random_range (-5) 5 ;;
             ret (upd_status (set_idleload (to_u8 (30 + r))) s)
        else ret (upd_status (set_idleload 0) s)) ;;
  let s := upd_status (set_boosttarget 0) s in
  let s := upd_status (set_boostduty 0) s in
  ret (s, k).

Definition simulateSensors (s : EngineSimulator) : EngineSimulator :=
  let s := upd_status (set_status1 0) s in
  let s :=
    if 0 <? currentRPM s
    then upd_status (set_status1 (Z.lor (status1 (status s)) 1)) s
    else s in
  let s :=
    if 500 <? coolantTemp s
    then upd_status (set_status1 (Z.lor (status1 (status s)) 2)) s
    else s in
  let s := upd_status (set_engine 0) s in
  let s :=
    if EngineMode_eqb (currentMode s) STARTUP
    then upd_status (set_engine (Z.lor (engine (status s)) 1)) s
    else s in
  let s :=
    if 0 <? currentRPM s
    then upd_status (set_engine (Z.lor (engine (status s)) 2)) s
    else s in
  let s := upd_status (set_testoutputs 0) s in
  s.

Definition simulateVoltage (s : EngineSimulator) : M E EngineSimulator :=
  let baseVoltage := cdiv VOLTAGE_NORMAL 10 in
  let baseVoltage :=
    if EngineMode_eqb (currentMode s) STARTUP then 10
    else if RPM_CRUISE <? currentRPM s then 14
    else baseVoltage in
  n <- addNoise 0 1 ;;
  ret (upd_status (set_batteryv (to_u8 (baseVoltage + n))) s).

(** The filler loop [for (int i = 8; i < 32; i++)]. *)
Definition canin_pattern (loopCounter : Z) (st : EngineStatus)
    : EngineStatus :=
  fold_left
    (fun st i =>
       canin_store i (Z.land (to_u32 (Z.of_nat i * 7 + loopCounter)) 255) st)
    (seq 8 24) st.

Definition simulateCANData (s : EngineSimulator) : EngineSimulator :=
  let s :=
    upd_status
      (canin_store 0 (Z.land (Z.shiftr (currentRPM s) 8) 255)) s in
  let s := upd_status (canin_store 1 (Z.land (currentRPM s) 255)) s in
  let speed := to_u16 (cdiv (currentRPM s) 100) in
  let speed := if 255 <? speed then 255 else speed in
  let s := upd_status (canin_store 2 (Z.land speed 255)) s in
  let s := upd_status (canin_store 3 0) s in
  let s := upd_status (canin_store 4 (clt (status s))) s in
  let s := upd_status (canin_store 5 0) s in
  let s := upd_status (canin_store 6 (tps (status s))) s in
  let s := upd_status (canin_store 7 0) s in
  upd_status (canin_pattern (loopCounter s)) s.

(** *** The tick *)

(** Everything [update] does once the update interval has elapsed, on
    the simulator it is called on and on the statics of the program. *)
Definition update_accepted (currentTime : Z) (s : EngineSimulator)
    (k : Statics) : M E (EngineSimulator * Statics) :=
  let s := set_lastUpdateTime currentTime s in
  let s := set_loopCounter (to_u32 (loopCounter s + 1)) s in
  let s :=
    if cmod (loopCounter s) 20 =? 0 then
      let s := set_secondCounter (to_u16 (secondCounter s + 1)) s in
      upd_status (set_secl (Z.land (secondCounter s) 255)) s
    else s in
  s <- updateStateMachine s ;;
  s <- simulateRPM s ;;
  let s := simulateThermal s in
  p <- simulateThrottle s k ;;
  let s := fst p in
  let k := snd p in
  s <- simulateMAP s ;;
  let s := simulateFuel s in
  let s := simulateIgnition s in
  s <- simulateAFR s ;;
  p <- simulateCorrections s k ;;
  let s := fst p in
  let k := snd p in
  let s := simulateSensors s in
  s <- simulateVoltage s ;;
  let s := simulateCANData s in
  let loops := Z.land (loopCounter s) 65535 in
  let s := upd_status (set_loopslo (Z.land loops 255)) s in
  let s := upd_status (set_loopshi (Z.land (Z.shiftr loops 8) 255)) s in
  let s := upd_status (set_freeramlo (Z.land 8192 255)) s in
  let s := upd_status (set_freeramhi (Z.land (Z.shiftr 8192 8) 255)) s in
  r <- random_max 100 ;;
  e <- (if r <? 2 then random_range 1 4 else ret 0) ;;
  ret (upd_status (set_errors (to_u8 e)) s, k).

(** [update] returns whether the tick was accepted; the simulator and
    the statics are returned as the call leaves them. *)
Definition update (s : EngineSimulator) (k : Statics)
    : M E (bool * EngineSimulator * Statics) :=
  currentTime <- millis ;;
  let deltaTime := to_u32 (currentTime - lastUpdateTime s) in
  if deltaTime <? UPDATE_INTERVAL_MS then ret (false, s, k)
  else
    p <- update_accepted currentTime s k ;;
    ret (true, fst p, snd p).

Definition setMode (mode : EngineMode) (s : EngineSimulator)
    : M E EngineSimulator :=
  transitionToMode mode s.

Definition getStatus (s : EngineSimulator) : EngineStatus := status s.

Definition getMode (s : EngineSimulator) : EngineMode := currentMode s.

End Simulator.

(** A simulator that has been constructed and initialised, and then driven
    by any sequence of [update] and [setMode] calls; the outside world may
    be in any state at each call, and so may the statics, which other
    simulators of the program may have written in between. *)
Inductive Reachable {E : Type} {TP : ITimeProvider E}
    {RP : IRandomProvider E} : EngineSimulator -> Prop :=
| Reachable_initialize : forall mem e0 e1,
    Reachable (fst (initialize (fst (EngineSimulator_new mem e0)) e1))
| Reachable_update : forall s k e,
    Reachable s -> Reachable (snd (fst (fst (update s k e))))
| Reachable_setMode : forall s mode e,
    Reachable s -> Reachable (fst (setMode mode s e)).

(** The statics as a program can find them: as they are at the start, or
    as an [update] of any simulator, in any state, has left them. *)
Inductive ProgramStatics {E : Type} {TP : ITimeProvider E}
    {RP : IRandomProvider E} : Statics -> Prop :=
| ProgramStatics_start : ProgramStatics statics_at_start
| ProgramStatics_update : forall s k e,
    ProgramStatics k -> ProgramStatics (snd (fst (update s k e))).

(** A simulator that has had the statics to itself since its
    [initialize]: whatever the program did before, from that call on the
    only [update] calls of the program are the ones on this simulator.
    This is the program of [main.cpp], which has one simulator, and a
    program that runs one simulator after another. *)
Inductive RunsAlone {E : Type} {TP : ITimeProvider E}
    {RP : IRandomProvider E} : EngineSimulator -> Statics -> Prop :=
| RunsAlone_initialize : forall s k e,
    ProgramStatics k -> RunsAlone (fst (initialize s e)) k
| RunsAlone_update : forall s k e,
    RunsAlone s k ->
    RunsAlone (snd (fst (fst (update s k e)))) (snd (fst (update s k e)))
| RunsAlone_setMode : forall s k mode e,
    RunsAlone s k -> RunsAlone (fst (setMode mode s e)) k.

(** ** SpeeduinoProtocol.h, SpeeduinoProtocol.cpp *)

(** The bytes of a C string literal, without the terminating NUL. *)
Definition c_bytes (str : string) : list Z :=
  List.map (fun c => Z.of_N (N_of_ascii c)) (list_ascii_of_string str).

Record SpeeduinoProtocol : Type := mkSpeeduinoProtocol {
  commandCount : Z;  (* uint32_t *)
  errorCount : Z;  (* uint32_t *)
  lastCommandTime : Z  (* uint32_t *)
}.

Definition set_commandCount (v : Z) (p : SpeeduinoProtocol)
    : SpeeduinoProtocol :=
  mkSpeeduinoProtocol v (errorCount p) (lastCommandTime p).

Definition set_errorCount (v : Z) (p : SpeeduinoProtocol)
    : SpeeduinoProtocol :=
  mkSpeeduinoProtocol (commandCount p) v (lastCommandTime p).

Definition SpeeduinoProtocol_new : SpeeduinoProtocol :=
  mkSpeeduinoProtocol 0 0 0.

Section Protocol.

Context {T : Type} {SI : ISerialInterface T}.

Definition sendResponse (data : list Z) : M T unit :=
  _ <- write data ;;
  flush.

(** What the transport is left with after one response: a single
    [write] of the buffer and a [flush]. *)
Definition sent (data : list Z) (t : T) : T :=
  snd (flush (snd (write data t))).

Definition sendString (str : string) : M T unit :=
  _ <- write (c_bytes str) ;;
  flush.

Definition begin (p : SpeeduinoProtocol) : M T SpeeduinoProtocol :=
  _ <- serial_begin SERIAL_BAUD_RATE ;;
  let p := set_commandCount 0 p in
  let p := set_errorCount 0 p in
  ret p.

Definition handleRealtimeData (simulator : EngineSimulator) : M T unit :=
  let status := getStatus simulator in
  sendResponse (to_bytes status).

Definition handleStatusRequest : M T unit :=
  sendResponse [0; 1; 1; 0].

Definition handleVersionRequest : M T unit :=
  sendString
    ("speeduino 202310-sim " ++ FIRMWARE_VERSION
     ++ String "010"%char EmptyString).

Definition handleSignatureRequest : M T unit :=
  let signature := repeat 0 20 in
  let sigStr := c_bytes SPEEDUINO_SIGNATURE in
  let len := length sigStr in
  let len := if Nat.ltb 20 len then 20%nat else len in
  let signature := firstn len sigStr ++ skipn len signature in
  sendResponse signature.

Definition handlePageSizesRequest : M T unit :=
  sendResponse [2; 32; 0; 0; 1; 0; 0].

Definition handleUnknownCommand (cmd : Z) : M T unit :=
  sendResponse [255].

(** The command characters: 'A' 65, 'Q' 81, 'V' 86, 'v' 118, 'S' 83,
    'n' 110. *)
Definition processCommands (p : SpeeduinoProtocol)
    (simulator : EngineSimulator) : M T (bool * SpeeduinoProtocol) :=
  n <- available ;;
  if n <=? 0 then ret (false, p)
  else
    cmdByte <- read ;;
    if cmdByte <? 0 then ret (false, p)
    else
      let command := to_u8 cmdByte in
      let p := set_commandCount (to_u32 (commandCount p + 1)) p in
      if command =? 65 then
        _ <- handleRealtimeData simulator ;; ret (true, p)
      else if command =? 81 then
        _ <- handleStatusRequest ;; ret (true, p)
      else if (command =? 86) || (command =? 118) then
        _ <- handleVersionRequest ;; ret (true, p)
      else if command =? 83 then
        _ <- handleSignatureRequest ;; ret (true, p)
      else if command =? 110 then
        _ <- handlePageSizesRequest ;; ret (true, p)
      else
        _ <- handleUnknownCommand command ;;
        let p := set_errorCount (to_u32 (errorCount p + 1)) p in
        ret (true, p).

End Protocol.

(** ** Deterministic providers

    A clock that reads what it is set to and a random source that replays
    a script of raw draws the way the Arduino core reduces them to a range
    ([random(max)] is the raw draw modulo [max], [random(min, max)] is
    [min + random(max - min)]); an exhausted script draws 0.  A serial
    port with a receive queue and an unbounded transmit log. *)

Record ScriptedEnv : Type := mkScriptedEnv {
  clock : Z;
  draws : list Z
}.

Definition next_draw : M ScriptedEnv Z :=
  fun e =>
    match draws e with
    | [] => (0, e)
    | d :: ds => (d, mkScriptedEnv (clock e) ds)
    end.

#[export] Instance ScriptedTime : ITimeProvider ScriptedEnv := {
  millis := fun e => (clock e, e)
}.

#[export] Instance ScriptedRandom : IRandomProvider ScriptedEnv := {
  seed := fun _ => ret tt;
  random_range := fun lo hi =>
    if hi <=? lo then ret lo
    else d <- next_draw ;; ret (lo + d mod (hi - lo));
  random_max := fun hi =>
    if hi =? 0 then ret 0
    else d <- next_draw ;; ret (d mod hi)
}.

Record BufferSerial : Type := mkBufferSerial {
  rx : list Z;
  tx : list Z
}.

#[export] Instance BufferSerialPort : ISerialInterface BufferSerial := {
  serial_begin := fun _ => ret tt;
  available := fun t => (Z.of_nat (length (rx t)), t);
  read := fun t =>
    match rx t with
    | [] => (-1, t)
    | b :: rest => (b, mkBufferSerial rest (tx t))
    end;
  write := fun data t =>
    (Z.of_nat (length data), mkBufferSerial (rx t) (tx t ++ data));
  flush := ret tt
}.

(** The driver loop of [main.cpp] on the scripted providers: the clock
    advances by [step] milliseconds before every [update]. *)
Fixpoint run_ticks (n : nat) (step : Z) (s : EngineSimulator) (k : Statics)
    (e : ScriptedEnv) : EngineSimulator * Statics * ScriptedEnv :=
  match n with
  | O => (s, k, e)
  | S n' =>
      let e := mkScriptedEnv (to_u32 (clock e + step)) (draws e) in
      let '(_, s, k, e) := update s k e in
      run_ticks n' step s k e
  end.


(** Power-on at clock 0: constructor, then [initialize]. *)
Definition power_on (script : list Z) : EngineSimulator * ScriptedEnv :=
  let (s, e) := EngineSimulator_new zero_status (mkScriptedEnv 0 script) in
  initialize s e.

(** A further simulator of the same program, constructed and
    initialised on the providers as they are. *)
Definition power_on_next (e : ScriptedEnv) : EngineSimulator * ScriptedEnv :=
  let (s, e) := EngineSimulator_new zero_status e in
  initialize s e.

(** One [update] with the clock reading [t]. *)
Definition tick_at (t : Z) (s : EngineSimulator) (k : Statics)
    (e : ScriptedEnv) : bool * EngineSimulator * Statics * ScriptedEnv :=
  update s k (mkScriptedEnv t (draws e)).

(** The configuration pages [handlePageSizesRequest] reports: page 0 of
    32 bytes and page 1 of 256 bytes. *)
Definition page_sizes : list Z := [32; 256].

(** The byte pair of a 16-bit size, low byte first. *)
Definition le16 (x : Z) : list Z :=
  [Z.land x 255; Z.land (Z.shiftr x 8) 255].

(** The parts of the simulator the properties below follow through a
    tick: the command echo, the fuel corrections, and the pulse width. *)
Definition corrections_of (s : EngineSimulator) : Z * Z :=
  (egocorrection (status s), iatcorrection (status s)).

Definition fuel_of (s : EngineSimulator) : Z * Z * Z :=
  (pw1lo (status s), pw1hi (status s), pulseWidth s).

Definition thermal_of (s : EngineSimulator) : EngineMode * Z :=
  (currentMode s, coolantTemp s).

(** The closed-loop test of [simulateCorrections]. *)
Definition closed_loop (s : EngineSimulator) : bool :=
  (500 <? coolantTemp s) && negb (EngineMode_eqb (currentMode s) WOT).

(** The trend after a closed-loop step that left the correction at
    [ego]. *)
Definition turned (ego trend : Z) : Z :=
  if ego <? 90 then 1 else if 110 <? ego then -1 else trend.

(** The closed-loop oscillator between its turning points: climbing
    from 89 up to 110, or falling from 111 down to 90. *)
Definition closed_loop_band (ego trend : Z) : Prop :=
  (trend = 1 /\ 89 <= ego <= 110) \/ (trend = -1 /\ 90 <= ego <= 111).

(** The trend is a step of one, up or down. *)
Definition unit_trend (k : Statics) : Prop :=
  egoTrend k = 1 \/ egoTrend k = -1.

(** Either the oscillator is in its band, or the engine is still at
    ambient temperature and no tick has set the correction yet. *)
Definition ego_settled (s : EngineSimulator) (k : Statics) : Prop :=
  closed_loop_band (egocorrection (status s)) (egoTrend k)
  \/ (coolantTemp s = TEMP_AMBIENT /\ unit_trend k).

Definition tracked (s : EngineSimulator)
    : Z * (Z * Z) * (Z * Z * Z) * (EngineMode * Z) :=
  (response (status s), corrections_of s, fuel_of s, thermal_of s).

(** * Properties *)

(** ** Integer conversions *)

Lemma to_u16_small : forall x, 0 <= x < 65536 -> to_u16 x = x.
Proof. intros x Hx. unfold to_u16. apply Z.mod_small. exact Hx. Qed.

Lemma to_i16_small : forall x, -32768 <= x < 32768 -> to_i16 x = x.
Proof.
  intros x Hx. unfold to_i16.
  rewrite Z.mod_small by lia. lia.
Qed.

Lemma to_i16_to_u16 : forall x, to_i16 (to_u16 x) = to_i16 x.
Proof.
  intros x. unfold to_i16, to_u16.
  rewrite Z.add_mod_idemp_l by lia. reflexivity.
Qed.

Lemma land_255_range : forall x, 0 <= Z.land x 255 < 256.
Proof.
  intros x. change 255 with (Z.ones 8).
  rewrite Z.land_ones by lia. apply Z.mod_pos_bound. reflexivity.
Qed.

(** Joining the two bytes a setter stores gives the value modulo 2^16,
    for negative values too. *)
Lemma join_bytes : forall x,
  Z.lor (Z.shiftl (Z.land (Z.shiftr x 8) 255) 8) (Z.land x 255)
  = x mod 65536.
Proof.
  intros x. change 65536 with (2 ^ 16). change 255 with (Z.ones 8).
  apply Z.bits_inj'. intros n Hn.
  rewrite Z.lor_spec, !Z.land_spec.
  destruct (Z.ltb_spec n 8) as [Hlo | Hhi].
  - rewrite Z.shiftl_spec_low by lia.
    rewrite Z.ones_spec_low by lia.
    rewrite Z.mod_pow2_bits_low by lia.
    rewrite andb_true_r. reflexivity.
  - rewrite Z.shiftl_spec by lia.
    rewrite Z.land_spec, Z.shiftr_spec by lia.
    replace (n - 8 + 8) with n by lia.
    rewrite (Z.ones_spec_high 8 n) by lia.
    rewrite andb_false_r, orb_false_r.
    destruct (Z.ltb_spec n 16) as [Hmid | Htop].
    + rewrite Z.ones_spec_low by lia.
      rewrite Z.mod_pow2_bits_low by lia.
      rewrite andb_true_r. reflexivity.
    + rewrite Z.ones_spec_high by lia.
      rewrite Z.mod_pow2_bits_high by lia.
      rewrite andb_false_r. reflexivity.
Qed.

Lemma get_set_u16 : forall x,
  0 <= x < 65536 ->
  to_u16 (Z.lor (Z.shiftl (to_u16 (Z.land (Z.shiftr x 8) 255)) 8)
                (Z.land x 255)) = x.
Proof.
  intros x Hx.
  rewrite (to_u16_small (Z.land _ 255))
    by (pose proof (land_255_range (Z.shiftr x 8)); lia).
  rewrite join_bytes. unfold to_u16.
  rewrite Z.mod_mod by lia. apply Z.mod_small. exact Hx.
Qed.

Lemma get_set_i16 : forall x,
  -32768 <= x < 32768 ->
  to_i16 (Z.lor (Z.shiftl (to_i16 (Z.land (Z.shiftr x 8) 255)) 8)
                (Z.land x 255)) = x.
Proof.
  intros x Hx.
  rewrite (to_i16_small (Z.land _ 255))
    by (pose proof (land_255_range (Z.shiftr x 8)); lia).
  rewrite join_bytes. change (x mod 65536) with (to_u16 x).
  rewrite to_i16_to_u16. apply to_i16_small. exact Hx.
Qed.

Lemma get_set_temp : forall c,
  to_i8 (to_i8 (to_u8 (to_i8 c + 40)) - 40) = to_i8 c.
Proof.
  intros c. unfold to_i8, to_u8.
  Z.div_mod_to_equations. lia.
Qed.

Lemma to_i8_small : forall c, -128 <= c <= 127 -> to_i8 c = c.
Proof.
  intros c Hc. unfold to_i8. rewrite Z.mod_small by lia. lia.
Qed.

(** ** Wire record accessors *)

(** C5, as the code has it.  Writing a 16-bit value with a setter of the
    wire record and reading it back with the matching getter returns the
    value: RPM, MAP and pulse width for every unsigned 16-bit value, the
    RPM rate for every signed 16-bit value.  For coolant and intake
    temperature the round trip holds for every Celsius value a signed
    byte holds, -128 to 127. *)
Theorem C5_accessor_roundtrip : forall (st : EngineStatus) (x : Z),
  (0 <= x < 65536 ->
     getRPM (setRPM x st) = x
     /\ getMAP (setMAP x st) = x
     /\ getPulseWidth (setPulseWidth x st) = x)
  /\ (-32768 <= x < 32768 -> getRPMDot (setRPMDot x st) = x)
  /\ (-128 <= x <= 127 ->
        getCoolantTemp (setCoolantTemp x st) = x
        /\ getIntakeTemp (setIntakeTemp x st) = x).
Proof.
  intros st x. split; [| split].
  - intros Hx.
    unfold getRPM, setRPM, getMAP, setMAP, getPulseWidth, setPulseWidth.
    cbn [rpmhi rpmlo maphi maplo pw1hi pw1lo set_rpmhi set_rpmlo
         set_maphi set_maplo set_pw1hi set_pw1lo].
    repeat split; apply get_set_u16; exact Hx.
  - intros Hx. unfold getRPMDot, setRPMDot.
    cbn [rpmdothi rpmdotlo set_rpmdothi set_rpmdotlo].
    apply get_set_i16. exact Hx.
  - intros Hx.
    unfold getCoolantTemp, setCoolantTemp, getIntakeTemp, setIntakeTemp.
    cbn [clt iat set_clt set_iat].
    rewrite get_set_temp, to_i8_small by exact Hx. split; reflexivity.
Qed.

(** In the domain the +40 offset maps onto one unsigned byte, -40 to 215,
    the value 200 is stored as the byte 240 and read back as -56. *)
Lemma C5_temperature_200_counterexample :
  -40 <= 200 <= 215
  /\ clt (setCoolantTemp 200 zero_status) = 240
  /\ getCoolantTemp (setCoolantTemp 200 zero_status) = -56
  /\ getCoolantTemp (setCoolantTemp 200 zero_status) <> 200
  /\ getIntakeTemp (setIntakeTemp 200 zero_status) <> 200.
Proof.
  repeat split; try lia; try reflexivity; vm_compute; discriminate.
Qed.

Lemma C5_accessor_roundtrip_witness :
  getRPM (setRPM 6800 zero_status) = 6800
  /\ getRPMDot (setRPMDot (-800) zero_status) = -800
  /\ getCoolantTemp (setCoolantTemp (-40) zero_status) = -40.
Proof.
  destruct (C5_accessor_roundtrip zero_status 6800) as [H16 _].
  destruct (C5_accessor_roundtrip zero_status (-800)) as [_ [Hdot _]].
  destruct (C5_accessor_roundtrip zero_status (-40)) as [_ [_ Htemp]].
  split; [apply H16; lia | split; [apply Hdot; lia | apply Htemp; lia]].
Defined.

(** ** Protocol handler *)

Ltac run_monad :=
  cbv beta delta [bind ret];
  repeat match goal with
         | |- context [let (_, _) := ?x in _] =>
             lazymatch x with
             | context [if _ then _ else _] => fail
             | context [let (_, _) := _ in _] => fail
             | _ => destruct x
             end
         end.

Section ProtocolProperties.

Context {T : Type} {SI : ISerialInterface T}.

Lemma sendResponse_sent : forall data t,
  sendResponse data t = (tt, sent data t).
Proof.
  intros data t. unfold sendResponse, sent. cbv beta delta [bind].
  destruct (write data t) as [k t']. cbn [snd].
  destruct (flush t') as [[] t'']. reflexivity.
Qed.

(** The dispatch of [processCommands] once a command byte was read. *)
Lemma processCommands_read : forall p sim t n t1 b t2,
  available t = (n, t1) -> 0 < n ->
  read t1 = (b, t2) -> 0 <= b ->
  processCommands p sim t =
    let p' := set_commandCount (to_u32 (commandCount p + 1)) p in
    let c := to_u8 b in
    if c =? 65 then ((true, p'), sent (to_bytes (status sim)) t2)
    else if c =? 81 then ((true, p'), sent [0; 1; 1; 0] t2)
    else if (c =? 86) || (c =? 118) then
      ((true, p'), snd (handleVersionRequest t2))
    else if c =? 83 then ((true, p'), snd (handleSignatureRequest t2))
    else if c =? 110 then ((true, p'), sent [2; 32; 0; 0; 1; 0; 0] t2)
    else ((true, set_errorCount (to_u32 (errorCount p' + 1)) p'),
          sent [255] t2).
Proof.
  intros p sim t n t1 b t2 Ha Hn Hr Hb.
  unfold processCommands. cbv beta delta [bind].
  rewrite Ha.
  destruct (Z.leb_spec n 0) as [Hle | _]; [lia |].
  rewrite Hr.
  destruct (Z.ltb_spec b 0) as [Hlt | _]; [lia |].
  cbv zeta.
  unfold handleRealtimeData, handleStatusRequest, handlePageSizesRequest,
    handleUnknownCommand, getStatus.
  repeat match goal with
         | |- context [if ?c then _ else _] => destruct c
         end;
    cbv beta delta [ret];
    rewrite ?sendResponse_sent; try reflexivity;
    match goal with
    | |- context [let (_, _) := ?x in _] => destruct x; reflexivity
    end.
Qed.

End ProtocolProperties.

Lemma to_bytes_length : forall st, List.length (to_bytes st) = 79%nat.
Proof. intros st. reflexivity. Qed.

Lemma to_bytes_first : forall st, nth 0 (to_bytes st) 0 = response st.
Proof. intros st. reflexivity. Qed.

(** ** Tracked parts *)

Lemma tracked_inv : forall a b,
  tracked a = tracked b ->
  response (status a) = response (status b)
  /\ corrections_of a = corrections_of b
  /\ fuel_of a = fuel_of b
  /\ thermal_of a = thermal_of b.
Proof.
  intros a b H. unfold tracked in H. repeat split; congruence.
Qed.

Lemma corrections_of_inv : forall a b,
  corrections_of a = corrections_of b ->
  egocorrection (status a) = egocorrection (status b)
  /\ iatcorrection (status a) = iatcorrection (status b).
Proof.
  intros a b H. unfold corrections_of in H. split; congruence.
Qed.

Lemma thermal_of_inv : forall a b,
  thermal_of a = thermal_of b ->
  currentMode a = currentMode b /\ coolantTemp a = coolantTemp b.
Proof.
  intros a b H. unfold thermal_of in H. split; congruence.
Qed.

(** ** Frame of the physics stages *)

Ltac break_pair :=
  match goal with
  | |- context [let (_, _) := ?x in _] =>
      lazymatch x with
      | context [if _ then _ else _] => fail
      | context [let (_, _) := _ in _] => fail
      | _ => destruct x
      end
  end.

Ltac break_if :=
  match goal with
  | |- context [if ?c then _ else _] =>
      lazymatch c with
      | context [if _ then _ else _] => fail
      | _ => destruct c
      end
  end.

Ltac reduce_records :=
  cbn -[Z.modulo Z.quot Z.rem Z.land Z.shiftr Z.shiftl Z.lor Z.add Z.mul
        Z.sub Z.opp Z.ltb Z.eqb Z.leb
        to_u8 to_u16 to_i8 to_i16 to_u32 cdiv cmod interpolate mapValue
        calculateVE calculateIgnitionAdvance calculateRequiredPulseWidth
        getWarmupEnrichment].

Ltac split_stage :=
  cbv beta delta [bind ret addNoise];
  repeat (first [break_pair | break_if]; reduce_records);
  try reflexivity.

Section StageFrames.

Context {E : Type} {TP : ITimeProvider E} {RP : IRandomProvider E}.

Lemma simulateRPM_tracked : forall s e,
  tracked (fst (simulateRPM s e)) = tracked s.
Proof. intros s e. unfold simulateRPM. split_stage. Qed.

(** [simulateThrottle] writes [lastTPS] and leaves the trend of the
    oscillator alone. *)
Lemma simulateThrottle_tracked : forall s k e,
  tracked (fst (fst (simulateThrottle s k e))) = tracked s
  /\ egoTrend (snd (fst (simulateThrottle s k e))) = egoTrend k.
Proof.
  intros s k e. unfold simulateThrottle.
  cbv beta delta [bind ret addNoise].
  repeat (first [break_pair | break_if]; reduce_records);
    split; reflexivity.
Qed.

Lemma simulateMAP_tracked : forall s e,
  tracked (fst (simulateMAP s e)) = tracked s.
Proof. intros s e. unfold simulateMAP. split_stage. Qed.

Lemma simulateIgnition_tracked : forall s,
  tracked (simulateIgnition s) = tracked s.
Proof. intros s. unfold simulateIgnition. split_stage. Qed.

Lemma simulateAFR_tracked : forall s e,
  tracked (fst (simulateAFR s e)) = tracked s.
Proof. intros s e. unfold simulateAFR. split_stage. Qed.

Lemma simulateSensors_tracked : forall s,
  tracked (simulateSensors s) = tracked s.
Proof. intros s. unfold simulateSensors. split_stage. Qed.

Lemma simulateVoltage_tracked : forall s e,
  tracked (fst (simulateVoltage s e)) = tracked s.
Proof. intros s e. unfold simulateVoltage. split_stage. Qed.

Lemma simulateCANData_tracked : forall s,
  tracked (simulateCANData s) = tracked s.
Proof. intros s. reflexivity. Qed.

Lemma transitionToMode_frame : forall m s e,
  let s' := fst (transitionToMode m s e) in
  response (status s') = response (status s)
  /\ corrections_of s' = corrections_of s
  /\ fuel_of s' = fuel_of s
  /\ coolantTemp s' = coolantTemp s
  /\ currentMode s' = m
  /\ stateStartTime s' = fst (millis e).
Proof.
  intros m s e. cbv zeta. unfold transitionToMode.
  cbv beta delta [bind ret].
  destruct (millis e) as [t e1].
  destruct m; repeat break_pair; reduce_records; repeat split.
Qed.

Lemma updateStateMachine_frame : forall s e,
  let s' := fst (updateStateMachine s e) in
  response (status s') = response (status s)
  /\ corrections_of s' = corrections_of s
  /\ fuel_of s' = fuel_of s
  /\ coolantTemp s' = coolantTemp s.
Proof.
  intros s e. cbv zeta. unfold updateStateMachine.
  cbv beta delta [bind ret].
  destruct (millis e) as [t e1].
  destruct (currentMode s);
    repeat (first [break_if | break_pair]);
    cbn [fst];
    try (repeat split; reflexivity);
    match goal with
    | |- context [transitionToMode ?m ?s0 ?e0] =>
        pose proof (transitionToMode_frame m s0 e0) as Hf;
        cbv zeta in Hf; tauto
    end.
Qed.

Lemma simulateThermal_frame : forall s,
  let s' := simulateThermal s in
  response (status s') = response (status s)
  /\ corrections_of s' = corrections_of s
  /\ fuel_of s' = fuel_of s
  /\ currentMode s' = currentMode s
  /\ exists target,
       In target [TEMP_ENGINE_WARM - 50; TEMP_ENGINE_WARM; TEMP_ENGINE_HOT]
       /\ coolantTemp s' = interpolate (coolantTemp s) target 5.
Proof.
  intros s. cbv zeta. unfold simulateThermal.
  repeat break_if; reduce_records;
    (repeat split; try reflexivity);
    eexists; (split; [| reflexivity]); cbn [In]; tauto.
Qed.

Lemma simulateFuel_frame : forall s,
  let s' := simulateFuel s in
  response (status s') = response (status s)
  /\ corrections_of s' = corrections_of s
  /\ thermal_of s' = thermal_of s.
Proof.
  intros s. cbv zeta. unfold simulateFuel.
  repeat break_if; reduce_records; repeat split.
Qed.

Lemma simulateCorrections_frame : forall s k e,
  let s' := fst (fst (simulateCorrections s k e)) in
  response (status s') = response (status s)
  /\ fuel_of s' = fuel_of s
  /\ thermal_of s' = thermal_of s.
Proof.
  intros s k e. cbv zeta. unfold simulateCorrections.
  cbv beta delta [bind ret].
  repeat (first [break_pair | break_if]; reduce_records); repeat split.
Qed.

End StageFrames.

(** ** The tick as a pipeline *)

Ltac step_call lem H sn en :=
  match goal with
  | |- context [let (_, _) := ?f ?s ?e in _] =>
      pose proof (lem s e) as H; cbv zeta in H;
      destruct (f s e) as [sn en]; cbn [fst] in H
  end.

Ltac step_shared lem H sn kn en :=
  match goal with
  | |- context [let (_, _) := ?f ?s ?k ?e in _] =>
      pose proof (lem s k e) as H; cbv zeta in H;
      destruct (f s k e) as [[sn kn] en]; cbn [fst snd] in H |- *
  end.

Ltac step_pure f lem H sn :=
  match goal with
  | |- context [f ?s] =>
      pose proof (lem s) as H; cbv zeta in H;
      generalize dependent (f s); intros sn H
  end.

Section TickPipeline.

Context {E : Type} {TP : ITimeProvider E} {RP : IRandomProvider E}.

(** An accepted tick, seen from the two stages that write the tracked
    parts: [sf] is the state [simulateFuel] starts from; [sc], [kc] and
    [ec] are the state, the statics and the world [simulateCorrections]
    starts from, and the statics it leaves are those of the tick. *)
Lemma update_accepted_stages : forall t s k e,
  exists sf sc kc ec,
    response (status sf) = response (status s)
    /\ corrections_of sf = corrections_of s
    /\ response (status sc) = response (status sf)
    /\ corrections_of sc = corrections_of sf
    /\ fuel_of sc = fuel_of (simulateFuel sf)
    /\ (exists target,
          In target
            [TEMP_ENGINE_WARM - 50; TEMP_ENGINE_WARM; TEMP_ENGINE_HOT]
          /\ coolantTemp sc = interpolate (coolantTemp s) target 5)
    /\ egoTrend kc = egoTrend k
    /\ tracked (fst (fst (update_accepted t s k e)))
       = tracked (fst (fst (simulateCorrections sc kc ec)))
    /\ snd (fst (update_accepted t s k e))
       = snd (fst (simulateCorrections sc kc ec)).
Proof.
  intros t s k e. unfold update_accepted.
  cbv beta zeta delta [bind ret].
  match goal with
  | |- context [updateStateMachine ?x e] =>
      assert (Hpre : tracked x = tracked s)
        by (break_if; reflexivity);
      generalize dependent x; intros s0 Hpre
  end.
  step_call updateStateMachine_frame Husm s1 e1.
  step_call simulateRPM_tracked Hrpm s2 e2.
  step_pure simulateThermal simulateThermal_frame Hth s3.
  step_shared simulateThrottle_tracked Hthr s4 k4 e4.
  destruct Hthr as [Hthr Hk4].
  step_call simulateMAP_tracked Hmap s5 e5.
  exists s5.
  step_pure simulateFuel simulateFuel_frame Hfuel s6.
  step_pure simulateIgnition simulateIgnition_tracked Hign s7.
  step_call simulateAFR_tracked Hafr s8 e8.
  exists s8, k4, e8.
  step_shared simulateCorrections_frame Hcorr s9 k9 e9.
  step_pure simulateSensors simulateSensors_tracked Hsens s10.
  step_call simulateVoltage_tracked Hvolt s11 e11.
  step_pure simulateCANData simulateCANData_tracked Hcan s12.
  repeat break_pair. cbn [fst snd].
  destruct Hth as (Hth1 & Hth2 & Hth3 & Hth4 & target & Hin & Hth5).
  destruct Husm as (Husm1 & Husm2 & Husm3 & Husm4).
  destruct Hfuel as (Hfuel1 & Hfuel2 & Hfuel3).
  unfold tracked, thermal_of in Hpre, Hrpm, Hthr, Hmap, Hfuel3, Hign, Hafr,
    Hsens, Hvolt, Hcan.
  repeat apply conj; try congruence.
  - exists target. split; [exact Hin | congruence].
  - transitivity (tracked s12);
      [break_if; repeat break_pair; reflexivity |].
    unfold tracked, thermal_of. congruence.
  - break_if; repeat break_pair; reflexivity.
Qed.

End TickPipeline.

(** ** Fuel stage *)

Lemma calculateRequiredPulseWidth_range : forall rpm map ve,
  PW_MIN <= calculateRequiredPulseWidth rpm map ve <= PW_MAX.
Proof.
  intros rpm map ve. unfold calculateRequiredPulseWidth, PW_MIN, PW_MAX.
  cbv zeta.
  set (pw := cdiv (cdiv (to_u32 (map * ve * 1000)) (to_u32 (rpm + 1))) 10).
  repeat match goal with
         | |- context [?a <? ?b] => destruct (Z.ltb_spec a b)
         end;
    try lia; rewrite to_u16_small; lia.
Qed.

Lemma getWarmupEnrichment_range : forall coolant,
  100 <= getWarmupEnrichment coolant <= 140.
Proof.
  intros coolant. unfold getWarmupEnrichment. cbv zeta.
  repeat match goal with
         | |- context [if ?c then _ else _] => destruct c
         end; lia.
Qed.

(** The final clamp of [simulateFuel]. *)
Lemma corrected_pw_clamp : forall c,
  10 <=
    (if PW_MAX <? (if c <? PW_MIN then PW_MIN else c)
     then PW_MAX
     else (if c <? PW_MIN then PW_MIN else c)) <= 255.
Proof.
  intros c. unfold PW_MIN, PW_MAX.
  repeat match goal with
         | |- context [?a <? ?b] => destruct (Z.ltb_spec a b)
         end; lia.
Qed.

Lemma getPulseWidth_of_fuel : forall a b,
  fuel_of a = fuel_of b ->
  getPulseWidth (status a) = getPulseWidth (status b)
  /\ pulseWidth a = pulseWidth b.
Proof.
  intros a b H. unfold fuel_of in H. injection H as Hlo Hhi Hpw.
  unfold getPulseWidth. rewrite Hlo, Hhi. split; [reflexivity | exact Hpw].
Qed.

Lemma simulateFuel_pulse_width : forall s,
  let s' := simulateFuel s in
  PW_MIN <= getPulseWidth (status s') <= PW_MAX
  /\ 10 <= pulseWidth s' <= 357
  /\ (egocorrection (status s) = 0 ->
      getPulseWidth (status s') = PW_MIN).
Proof.
  intros s. cbv zeta. unfold simulateFuel. cbv zeta.
  match goal with
  | |- context [if 10 <? ?x then _ else _] => destruct (10 <? x)
  end;
    unfold getPulseWidth, setPulseWidth; reduce_records;
    match goal with
    | |- context [Z.land (if PW_MAX <? (if ?c <? PW_MIN then _ else _)
                          then _ else _) 255] =>
        pose proof (corrected_pw_clamp c) as Hclamp;
        assert (Hzero : egocorrection (status s) = 0 -> c = 0)
          by (intros H0; rewrite H0, Z.mul_0_r; reflexivity);
        generalize dependent c; intros cpw Hclamp Hzero
    end;
    (rewrite get_set_u16 by lia);
    (split; [exact Hclamp | split]);
    try (intros H0; rewrite (Hzero H0); reflexivity);
    match goal with
    | |- context [?p * getWarmupEnrichment ?c] =>
        pose proof (getWarmupEnrichment_range c);
        assert (10 <= p <= 255)
          by apply calculateRequiredPulseWidth_range;
        generalize dependent (getWarmupEnrichment c);
        generalize dependent p; intros pw0 Hp w Hw
    end;
    unfold cdiv; rewrite Z.quot_div_nonneg by nia;
    (assert (10 <= pw0 * w / 100 <= 357)
      by (split; [apply Z.div_le_lower_bound | apply Z.div_le_upper_bound];
          nia));
    rewrite to_u16_small; lia.
Qed.

(** ** Ticks *)

Section TickProperties.

Context {E : Type} {TP : ITimeProvider E} {RP : IRandomProvider E}.

(** An accepted tick is the pipeline run at the clock reading [update]
    took, and the update interval had elapsed. *)
Lemma update_accepted_inv : forall s k e s' k' e',
  update s k e = ((true, s', k'), e') ->
  UPDATE_INTERVAL_MS <= to_u32 (fst (millis e) - lastUpdateTime s)
  /\ ((s', k'), e') = update_accepted (fst (millis e)) s k (snd (millis e)).
Proof.
  intros s k e s' k' e'. unfold update. cbv beta delta [bind ret].
  destruct (millis e) as [t e1]. cbn [fst snd].
  destruct (Z.ltb_spec (to_u32 (t - lastUpdateTime s)) UPDATE_INTERVAL_MS)
    as [Hlt | Hge].
  - intros H. discriminate H.
  - destruct (update_accepted t s k e1) as [[s2 k2] e2]. cbn [fst snd].
    intros H. injection H as Hs Hk He. subst.
    split; [exact Hge | reflexivity].
Qed.

(** A call of [update] either returns at the interval test or runs the
    pipeline. *)
Lemma update_cases : forall s k e,
  let t := fst (millis e) in
  let e1 := snd (millis e) in
  ((to_u32 (t - lastUpdateTime s) <? UPDATE_INTERVAL_MS) = true
   /\ fst (update s k e) = (false, s, k))
  \/ ((to_u32 (t - lastUpdateTime s) <? UPDATE_INTERVAL_MS) = false
      /\ fst (update s k e)
         = (true, fst (fst (update_accepted t s k e1)),
            snd (fst (update_accepted t s k e1)))).
Proof.
  intros s k e. cbv zeta. unfold update. cbv beta delta [bind ret].
  destruct (millis e) as [t e1]. cbn [fst snd].
  destruct (to_u32 (t - lastUpdateTime s) <? UPDATE_INTERVAL_MS).
  - left. split; reflexivity.
  - right. destruct (update_accepted t s k e1) as [[s2 k2] e2].
    split; reflexivity.
Qed.

Lemma update_accepted_response : forall t s k e,
  response (status (fst (fst (update_accepted t s k e))))
  = response (status s).
Proof.
  intros t s k e.
  destruct (update_accepted_stages t s k e)
    as (sf & sc & kc & ec & Hr1 & _ & Hr2 & _ & _ & _ & _ & Htr & _).
  destruct (simulateCorrections_frame sc kc ec) as (Hr3 & _ & _).
  unfold tracked in Htr. congruence.
Qed.

Lemma update_accepted_fuel : forall t s k e,
  exists sf,
    corrections_of sf = corrections_of s
    /\ fuel_of (fst (fst (update_accepted t s k e)))
       = fuel_of (simulateFuel sf).
Proof.
  intros t s k e.
  destruct (update_accepted_stages t s k e)
    as (sf & sc & kc & ec & _ & Hc1 & _ & _ & Hf & _ & _ & Htr & _).
  destruct (simulateCorrections_frame sc kc ec) as (_ & Hf2 & _).
  exists sf. split; [exact Hc1 |].
  unfold tracked in Htr. congruence.
Qed.

Lemma initialize_status : forall s e,
  let s' := fst (initialize s e) in
  response (status s') = 65
  /\ egocorrection (status s') = 0
  /\ iatcorrection (status s') = 0
  /\ coolantTemp s' = TEMP_AMBIENT.
Proof.
  intros s e. cbv zeta. unfold initialize. cbv beta delta [bind ret].
  destruct (millis e) as [t e1]. repeat split.
Qed.

Lemma update_response : forall s k e,
  response (status (snd (fst (fst (update s k e))))) = response (status s).
Proof.
  intros s k e.
  destruct (update_cases s k e) as [[_ Hup] | [_ Hup]]; rewrite Hup;
    cbn [fst snd]; [reflexivity | apply update_accepted_response].
Qed.

Lemma Reachable_response : forall s,
  Reachable s -> response (status s) = 65.
Proof.
  intros s H. induction H as [mem e0 e1 | s k e _ IH | s mode e _ IH].
  - apply initialize_status.
  - rewrite update_response. exact IH.
  - unfold setMode.
    destruct (transitionToMode_frame mode s e) as (Hr & _).
    rewrite Hr. exact IH.
Qed.

(** C3, as the code has it.  After every accepted tick, from any state,
    the pulse-width field of the wire record is within [PW_MIN, PW_MAX]
    (10 to 255); the simulator's own pulse-width variable holds the
    value after warm-up enrichment and before the corrections and the
    final clamp, and is within 10 to 357. *)
Theorem C3_pulse_width_after_tick : forall s k e s' k' e',
  update s k e = ((true, s', k'), e') ->
  PW_MIN <= getPulseWidth (status s') <= PW_MAX
  /\ 10 <= pulseWidth s' <= 357.
Proof.
  intros s k e s' k' e' Hup.
  apply update_accepted_inv in Hup. destruct Hup as [_ Hrun].
  destruct (update_accepted_fuel (fst (millis e)) s k (snd (millis e)))
    as (sf & _ & Hfuel).
  rewrite <- Hrun in Hfuel. cbn [fst] in Hfuel.
  apply getPulseWidth_of_fuel in Hfuel. destruct Hfuel as [Hpw Hvar].
  rewrite Hpw, Hvar.
  destruct (simulateFuel_pulse_width sf) as (H1 & H2 & _).
  split; assumption.
Qed.

(** C10.  After [initialize] and the first accepted tick the pulse-width
    field of the wire record is PW_MIN: [initialize] leaves the EGO
    correction at zero, the fuel stage runs before the corrections
    stage, and the corrected pulse width, zero, is clamped up. *)
Theorem C10_first_tick_pulse_width_is_PW_MIN : forall s0 e0 k e s' k' e',
  update (fst (initialize s0 e0)) k e = ((true, s', k'), e') ->
  getPulseWidth (status s') = PW_MIN.
Proof.
  intros s0 e0 k e s' k' e' Hup.
  apply update_accepted_inv in Hup. destruct Hup as [_ Hrun].
  match type of Hrun with
  | _ = update_accepted ?t ?s ?k0 ?e1 =>
      destruct (update_accepted_fuel t s k0 e1) as (sf & Hcorr & Hfuel)
  end.
  rewrite <- Hrun in Hfuel. cbn [fst] in Hfuel.
  apply getPulseWidth_of_fuel in Hfuel. destruct Hfuel as [Hpw _].
  rewrite Hpw.
  destruct (simulateFuel_pulse_width sf) as (_ & _ & Hzero).
  apply Hzero.
  destruct (initialize_status s0 e0) as (_ & Hego & _).
  unfold corrections_of in Hcorr. injection Hcorr as Hc _.
  rewrite Hc. exact Hego.
Qed.

(** C6.  A tick that comes before the update interval has elapsed
    returns false and leaves the whole simulator as it was, and the
    statics of the program with it; the world has seen a single clock
    read. *)
Theorem C6_tick_within_interval_is_noop : forall s k e,
  to_u32 (fst (millis e) - lastUpdateTime s) < UPDATE_INTERVAL_MS ->
  update s k e = ((false, s, k), snd (millis e)).
Proof.
  intros s k e Hlt. unfold update. cbv beta delta [bind ret].
  destruct (millis e) as [t e1]. cbn [fst snd] in *.
  destruct (Z.ltb_spec (to_u32 (t - lastUpdateTime s)) UPDATE_INTERVAL_MS)
    as [_ | Hge]; [reflexivity | lia].
Qed.

(** C8.  [setMode] is the transition the state machine performs: it sets
    the mode, resets the time-in-state clock to the clock reading, and
    whenever [updateStateMachine] changes the simulator at all, the
    result is that of [setMode] for some mode, run in the world as the
    state machine left it (after its clock read and, where it has one,
    its transition draw). *)
Theorem C8_setMode_is_the_natural_transition :
  (forall mode s e,
     setMode mode s e = transitionToMode mode s e
     /\ currentMode (fst (setMode mode s e)) = mode
     /\ stateStartTime (fst (setMode mode s e)) = fst (millis e))
  /\ (forall s e,
        let e1 := snd (millis e) in
        let e2 := snd (random_max 100 e1) in
        updateStateMachine s e = (s, e1)
        \/ updateStateMachine s e = (s, e2)
        \/ (exists mode, updateStateMachine s e = setMode mode s e1)
        \/ (exists mode, updateStateMachine s e = setMode mode s e2)).
Proof.
  split.
  - intros mode s e. split; [reflexivity |].
    unfold setMode.
    destruct (transitionToMode_frame mode s e) as (_ & _ & _ & _ & Hm & Ht).
    split; assumption.
  - intros s e. cbv zeta. unfold updateStateMachine, setMode.
    cbv beta delta [bind ret].
    destruct (millis e) as [t e1]. cbn [snd]. cbv beta iota.
    destruct (random_max 100 e1) as [rand e2] eqn:Hrand. cbn [snd].
    destruct (currentMode s);
      cbv beta iota;
      repeat (break_if; cbv beta iota; rewrite ?Hrand);
      solve [ left; reflexivity
            | right; left; reflexivity
            | right; right; left; eexists; reflexivity
            | right; right; right; eexists; reflexivity ].
Qed.

End TickProperties.

(** ** Closed-loop correction *)

Section EgoCorrection.

Context {E : Type} {TP : ITimeProvider E} {RP : IRandomProvider E}.

Lemma simulateCorrections_ego : forall s k e,
  let s' := fst (fst (simulateCorrections s k e)) in
  let k' := snd (fst (simulateCorrections s k e)) in
  let ego' := to_u8 (egocorrection (status s) + egoTrend k) in
  if closed_loop s
  then egocorrection (status s') = ego'
       /\ egoTrend k' = turned ego' (egoTrend k)
  else egocorrection (status s') = 100 /\ egoTrend k' = egoTrend k.
Proof.
  intros s k e. cbv zeta. unfold simulateCorrections, closed_loop, turned.
  cbv beta delta [bind ret]. reduce_records.
  repeat (first [break_pair | break_if]; reduce_records); split; reflexivity.
Qed.

Lemma closed_loop_step : forall ego trend,
  closed_loop_band ego trend ->
  let ego' := to_u8 (ego + trend) in
  closed_loop_band ego' (turned ego' trend).
Proof.
  intros ego trend [[Ht Hr] | [Ht Hr]]; subst trend; cbv zeta;
    unfold turned, to_u8; rewrite Z.mod_small by lia;
    repeat match goal with
           | |- context [?a <? ?b] => destruct (Z.ltb_spec a b)
           end;
    unfold closed_loop_band; lia.
Qed.

Lemma turned_unit : forall ego trend,
  trend = 1 \/ trend = -1 ->
  turned ego trend = 1 \/ turned ego trend = -1.
Proof.
  intros ego trend H. unfold turned.
  destruct (ego <? 90); [left; reflexivity |].
  destruct (110 <? ego); [right; reflexivity | exact H].
Qed.

Lemma interpolate_from_ambient : forall target,
  In target [TEMP_ENGINE_WARM - 50; TEMP_ENGINE_WARM; TEMP_ENGINE_HOT] ->
  interpolate TEMP_AMBIENT target 5 <= 500.
Proof.
  intros target Hin. cbn [In] in Hin.
  destruct Hin as [H | [H | [H | []]]]; subst target; vm_compute;
    discriminate.
Qed.

(** What an accepted tick does to the oscillator: the coolant has moved
    one step of the thermal stage, and the corrections stage has either
    added the trend the statics held when the tick began, or set the
    correction to 100. *)
Lemma update_accepted_ego : forall t s k e,
  let s' := fst (fst (update_accepted t s k e)) in
  let k' := snd (fst (update_accepted t s k e)) in
  let ego' := to_u8 (egocorrection (status s) + egoTrend k) in
  (exists target,
     In target [TEMP_ENGINE_WARM - 50; TEMP_ENGINE_WARM; TEMP_ENGINE_HOT]
     /\ coolantTemp s' = interpolate (coolantTemp s) target 5)
  /\ (if closed_loop s'
      then egocorrection (status s') = ego'
           /\ egoTrend k' = turned ego' (egoTrend k)
      else egocorrection (status s') = 100 /\ egoTrend k' = egoTrend k).
Proof.
  intros t s k e. cbv zeta.
  destruct (update_accepted_stages t s k e)
    as (sf & sc & kc & ec & _ & Hc1 & _ & Hc2 & _ & (target & Hin & Hcool)
        & Hkc & Htr & Hk).
  pose proof (simulateCorrections_ego sc kc ec) as Hego. cbv zeta in Hego.
  destruct (simulateCorrections_frame sc kc ec) as (_ & _ & Hth).
  apply tracked_inv in Htr. destruct Htr as (_ & Hcorr_eq & _ & Hth_eq).
  apply corrections_of_inv in Hcorr_eq. destruct Hcorr_eq as (Hego_eq & _).
  apply thermal_of_inv in Hth_eq. destruct Hth_eq as (Hmode_eq & Hcool_eq).
  apply corrections_of_inv in Hc1. destruct Hc1 as (Hc1e & _).
  apply corrections_of_inv in Hc2. destruct Hc2 as (Hc2e & _).
  apply thermal_of_inv in Hth. destruct Hth as (Hmode & Hcool2).
  unfold closed_loop in *.
  rewrite Hk, Hmode_eq, Hcool_eq, Hego_eq, Hmode, Hcool2.
  split.
  - exists target. split; [exact Hin | exact Hcool].
  - rewrite Hc2e, Hc1e, Hkc in Hego. exact Hego.
Qed.

Lemma update_accepted_unit_trend : forall t s k e,
  unit_trend k -> unit_trend (snd (fst (update_accepted t s k e))).
Proof.
  intros t s k e Hk.
  destruct (update_accepted_ego t s k e) as [_ Hego]. cbv zeta in Hego.
  unfold unit_trend in *.
  destruct (closed_loop (fst (fst (update_accepted t s k e))));
    destruct Hego as [_ Ht]; rewrite Ht;
    [apply turned_unit; exact Hk | exact Hk].
Qed.

Lemma update_accepted_settled : forall t s k e,
  ego_settled s k ->
  let s' := fst (fst (update_accepted t s k e)) in
  let k' := snd (fst (update_accepted t s k e)) in
  closed_loop_band (egocorrection (status s')) (egoTrend k').
Proof.
  intros t s k e Hs. cbv zeta.
  destruct (update_accepted_ego t s k e)
    as [(target & Hin & Hcool) Hego].
  cbv zeta in Hego.
  destruct (closed_loop (fst (fst (update_accepted t s k e)))) eqn:Hloop;
    destruct Hego as [He Ht]; rewrite He, Ht.
  - apply closed_loop_step.
    destruct Hs as [Hband | [Hamb _]]; [exact Hband |].
    exfalso. unfold closed_loop in Hloop. rewrite Hcool, Hamb in Hloop.
    pose proof (interpolate_from_ambient target Hin) as Hle.
    apply andb_true_iff in Hloop. destruct Hloop as [Hgt _].
    apply Z.ltb_lt in Hgt. lia.
  - unfold closed_loop_band, unit_trend in *.
    destruct Hs as [[[Hs1 _] | [Hs1 _]] | [_ [Hs1 | Hs1]]]; lia.
Qed.

Lemma ProgramStatics_unit_trend : forall k,
  ProgramStatics k -> unit_trend k.
Proof.
  intros k H. induction H as [| s k e _ IH].
  - left. reflexivity.
  - destruct (update_cases s k e) as [[_ Hup] | [_ Hup]]; rewrite Hup;
      cbn [fst snd]; [exact IH | apply update_accepted_unit_trend; exact IH].
Qed.

Lemma RunsAlone_ego_settled : forall s k,
  RunsAlone s k -> ego_settled s k.
Proof.
  intros s k H. induction H as [s k e Hk | s k e _ IH | s k mode e _ IH].
  - right. split.
    + apply initialize_status.
    + apply ProgramStatics_unit_trend. exact Hk.
  - destruct (update_cases s k e) as [[_ Hup] | [_ Hup]]; rewrite Hup;
      cbn [fst snd]; [exact IH |].
    left. apply update_accepted_settled. exact IH.
  - unfold setMode.
    destruct (transitionToMode_frame mode s e) as (_ & Hc & _ & Hcool & _).
    apply corrections_of_inv in Hc. destruct Hc as (He & _).
    unfold ego_settled. rewrite He, Hcool. exact IH.
Qed.

Lemma EngineMode_eqb_eq : forall a b,
  EngineMode_eqb a b = true <-> a = b.
Proof.
  intros a b. split.
  - destruct a, b; intros H; try reflexivity; discriminate H.
  - intros H. subst b. destruct a; reflexivity.
Qed.

Lemma closed_loop_spec : forall s,
  closed_loop s = true <-> 500 < coolantTemp s /\ currentMode s <> WOT.
Proof.
  intros s. unfold closed_loop.
  rewrite andb_true_iff, Z.ltb_lt, negb_true_iff.
  split; intros [Hwarm Hmode]; (split; [exact Hwarm |]).
  - intros Heq. apply EngineMode_eqb_eq in Heq. congruence.
  - destruct (EngineMode_eqb (currentMode s) WOT) eqn:Heq;
      [| reflexivity].
    apply EngineMode_eqb_eq in Heq. contradiction.
Qed.

(** C7, as the code has it.  After every accepted tick, from any state:
    unless the coolant temperature exceeds 50.0 degrees and the mode is
    not wide-open throttle, the EGO correction is exactly 100 percent.
    When it does and the simulator has had the statics to itself since
    its [initialize], the correction lies within 89 to 111 percent,
    since the oscillator turns only once it has passed 110 or 90. *)
Theorem C7_ego_correction_after_tick : forall s k e s' k' e',
  update s k e = ((true, s', k'), e') ->
  (RunsAlone s k ->
   500 < coolantTemp s' /\ currentMode s' <> WOT ->
     89 <= egocorrection (status s') <= 111)
  /\ (~ (500 < coolantTemp s' /\ currentMode s' <> WOT) ->
      egocorrection (status s') = 100).
Proof.
  intros s k e s' k' e' Hup.
  apply update_accepted_inv in Hup. destruct Hup as [_ Hrun].
  split.
  - intros Halone Hclosed.
    pose proof (update_accepted_settled (fst (millis e)) s k
                  (snd (millis e)) (RunsAlone_ego_settled s k Halone))
      as Hband.
    cbv zeta in Hband. rewrite <- Hrun in Hband. cbn [fst snd] in Hband.
    unfold closed_loop_band in Hband. lia.
  - intros Hopen.
    destruct (update_accepted_ego (fst (millis e)) s k (snd (millis e)))
      as [_ Hego].
    cbv zeta in Hego. rewrite <- Hrun in Hego. cbn [fst snd] in Hego.
    destruct (closed_loop s') eqn:Hloop.
    + exfalso. apply Hopen. apply closed_loop_spec. exact Hloop.
    + apply Hego.
Qed.

End EgoCorrection.

(** ** Commands *)

Section CommandProperties.

Context {T : Type} {SI : ISerialInterface T}.
Context {E : Type} {TP : ITimeProvider E} {RP : IRandomProvider E}.

(** C1.  On the command byte 'A' the handler hands the transport one
    buffer, the 79 bytes of the wire record in memory order, and
    flushes; once [initialize] has run the first of them is 'A'. *)
Theorem C1_realtime_data_is_the_wire_record : forall p sim t n t1 t2,
  available t = (n, t1) -> 0 < n ->
  read t1 = (65, t2) ->
  processCommands p sim t
    = ((true, set_commandCount (to_u32 (commandCount p + 1)) p),
       sent (to_bytes (status sim)) t2)
  /\ List.length (to_bytes (status sim)) = 79%nat
  /\ (@Reachable E TP RP sim -> nth 0 (to_bytes (status sim)) 0 = 65).
Proof.
  intros p sim t n t1 t2 Ha Hn Hr.
  rewrite (processCommands_read p sim t n t1 65 t2 Ha Hn Hr) by lia.
  split; [reflexivity | split].
  - apply to_bytes_length.
  - intros Hreach. rewrite to_bytes_first.
    apply Reachable_response. exact Hreach.
Qed.

(** C2.  A poll that reads a byte counts it, whatever the byte: the
    command counter is incremented (as a [uint32_t], so by exactly 1
    below its maximum).  A byte outside A, Q, V, v, S, n also
    increments the error counter the same way, and the response is the
    single byte 0xFF; a byte inside the set leaves the error counter
    alone. *)
Theorem C2_every_command_is_counted : forall p (sim : EngineSimulator)
    t n t1 b t2,
  available t = (n, t1) -> 0 < n ->
  read t1 = (b, t2) -> 0 <= b < 256 ->
  let r := processCommands p sim t in
  let p' := snd (fst r) in
  fst (fst r) = true
  /\ commandCount p' = to_u32 (commandCount p + 1)
  /\ (0 <= commandCount p < 4294967295 ->
      commandCount p' = commandCount p + 1)
  /\ (~ In b [65; 81; 86; 118; 83; 110] ->
      errorCount p' = to_u32 (errorCount p + 1)
      /\ (0 <= errorCount p < 4294967295 ->
          errorCount p' = errorCount p + 1)
      /\ snd r = sent [255] t2)
  /\ (In b [65; 81; 86; 118; 83; 110] -> errorCount p' = errorCount p).
Proof.
  intros p sim t n t1 b t2 Ha Hn Hr Hb. cbv zeta.
  rewrite (processCommands_read p sim t n t1 b t2 Ha Hn Hr) by lia.
  cbv zeta. unfold to_u8. rewrite (Z.mod_small b 256) by lia.
  assert (Hu32 : forall c, 0 <= c < 4294967295 -> to_u32 (c + 1) = c + 1)
    by (intros c Hc; unfold to_u32; apply Z.mod_small; lia).
  cbn [In].
  repeat match goal with
         | |- context [?x =? ?y] => destruct (Z.eqb_spec x y)
         end;
    cbn [orb fst snd commandCount errorCount set_commandCount
         set_errorCount];
    (split; [reflexivity |]);
    (split; [reflexivity |]);
    (split; [apply Hu32 |]);
    (split; [intros Hout | intros Hin]);
    try reflexivity; try (exfalso; intuition lia).
  repeat split. apply Hu32.
Qed.

(** C9.  On the command byte 'n' the response is 7 bytes: the number of
    configured pages, the size of each page as a byte pair, low byte
    first, and a reserved pair of zeros. *)
Theorem C9_page_sizes_response : forall p (sim : EngineSimulator)
    t n t1 t2,
  available t = (n, t1) -> 0 < n ->
  read t1 = (110, t2) ->
  let resp :=
    Z.of_nat (List.length page_sizes) :: flat_map le16 page_sizes
    ++ [0; 0] in
  processCommands p sim t
    = ((true, set_commandCount (to_u32 (commandCount p + 1)) p),
       sent resp t2)
  /\ List.length resp = 7%nat
  /\ nth 0 resp 0 = Z.of_nat (List.length page_sizes).
Proof.
  intros p sim t n t1 t2 Ha Hn Hr. cbv zeta.
  rewrite (processCommands_read p sim t n t1 110 t2 Ha Hn Hr) by lia.
  repeat split.
Qed.

End CommandProperties.

(** ** Runs on the scripted providers *)

(** C4 on the code.  [simulateRPM] clamps the RPM and then adds the idle
    fluctuation.  After [initialize] and [setMode(IDLE)], the first tick
    ramps the RPM from 0 to 2 and the draw -10 wraps the unsigned RPM to
    65528.  At the other end, with the engine driven to 6800 RPM by
    [setMode(WOT)] and then put in IDLE, the RPM climbs to the clamp and
    the draw +9 leaves it at 7009.  Both values are in the simulator and
    in the wire record. *)
Theorem C4_idle_fluctuation_leaves_the_rpm_range :
  (let (s0, e0) := power_on [] in
   let (s1, e1) := setMode IDLE s0 e0 in
   let '(changed, s2, _, _) := tick_at 50 s1 statics_at_start e1 in
   changed = true
   /\ currentRPM s2 = 65528
   /\ getRPM (status s2) = 65528
   /\ RPM_MAX < currentRPM s2)
  /\ (let (s0, e0) := power_on (repeat 19 2000) in
      let (s1, e1) := setMode WOT s0 e0 in
      let '(s2, k2, e2) := run_ticks 59 50 s1 statics_at_start e1 in
      let (s3, e3) := setMode WOT s2 e2 in
      let '(s4, k4, e4) := run_ticks 32 50 s3 k2 e3 in
      let (s5, e5) := setMode IDLE s4 e4 in
      let '(s6, k6, e6) := run_ticks 18 50 s5 k4 e5 in
      let '(changed, s7, _, _) := tick_at 5500 s6 k6 e6 in
      currentRPM s4 = 6800
      /\ changed = true
      /\ currentMode s7 = IDLE
      /\ currentRPM s7 = 7009
      /\ getRPM (status s7) = 7009
      /\ RPM_MAX < currentRPM s7).
Proof. vm_compute. repeat split. Qed.

(** After [initialize], the first tick leaves the simulator's pulse-width
    variable at 306, above PW_MAX: 255 from the base calculation times the
    warm-up enrichment of 120 percent. *)
Lemma C3_pulse_width_variable_counterexample :
  let (s0, e0) := power_on [] in
  let '(changed, s1, _, _) := tick_at 50 s0 statics_at_start e0 in
  changed = true
  /\ pulseWidth s1 = 306
  /\ ~ (PW_MIN <= pulseWidth s1 <= PW_MAX).
Proof. vm_compute. repeat split. intros [_ H]. apply H. reflexivity. Qed.

(** The program of [main.cpp], one simulator from the start of the
    program.  From [initialize], with a tick every 50 ms, the coolant
    passes 50.0 degrees at tick 14 and the closed-loop correction climbs
    by one per tick; after tick 24 it is 111, above 110, and after tick 46
    it is 89, below 90, with the engine never in wide-open throttle. *)
Lemma C7_ego_correction_band_counterexample :
  let (s0, e0) := power_on [] in
  let '(s23, k23, e23) := run_ticks 23 50 s0 statics_at_start e0 in
  let '(changed24, s24, k24, e24) := tick_at 1200 s23 k23 e23 in
  let '(s45, k45, e45) := run_ticks 21 50 s24 k24 e24 in
  let '(changed46, s46, _, _) := tick_at 2300 s45 k45 e45 in
  (changed24 = true
   /\ 500 < coolantTemp s24
   /\ currentMode s24 = STARTUP
   /\ egocorrection (status s24) = 111
   /\ ~ (90 <= egocorrection (status s24) <= 110))
  /\ (changed46 = true
      /\ 500 < coolantTemp s46
      /\ currentMode s46 = STARTUP
      /\ egocorrection (status s46) = 89
      /\ ~ (90 <= egocorrection (status s46) <= 110)).
Proof.
  vm_compute. repeat split; try discriminate;
    intros [H1 H2];
    first [apply H1; reflexivity | apply H2; reflexivity].
Qed.

(** The trend is shared.  A program with two simulators ticks the first
    24 times, which leaves its correction at 111 and the trend at -1.
    The second starts its closed loop with that trend: after its tick 14
    the correction is 99, where a simulator alone would show 101; after
    its tick 24 it is 89 and the trend is 1 again.  The next tick of the
    first simulator then adds 1 to 111: the correction is 112, outside 89
    to 111, with the coolant above 50.0 degrees and the mode STARTUP. *)
Lemma second_simulator_shares_the_trend :
  let (a0, e) := power_on [] in
  let (b0, e) := power_on_next e in
  let '(a24, k, e) := run_ticks 24 50 a0 statics_at_start e in
  let trend_left_by_a := egoTrend k in
  let '(b14, k, e) := run_ticks 14 50 b0 k e in
  let '(b24, k, e) := run_ticks 10 50 b14 k e in
  let trend_left_by_b := egoTrend k in
  let '(changed, a25, _, _) := tick_at 2450 a24 k e in
  (egocorrection (status a24) = 111 /\ trend_left_by_a = -1)
  /\ (closed_loop b14 = true /\ egocorrection (status b14) = 99)
  /\ (egocorrection (status b24) = 89 /\ trend_left_by_b = 1)
  /\ (changed = true
      /\ closed_loop a25 = true
      /\ currentMode a25 = STARTUP
      /\ egocorrection (status a25) = 112
      /\ ~ (89 <= egocorrection (status a25) <= 111)).
Proof.
  vm_compute. repeat split; try discriminate.
  intros [_ H]. apply H. reflexivity.
Qed.

(** ** The theorems at concrete inputs *)

Lemma C1_realtime_data_witness :
  let sim := fst (power_on []) in
  let t1 := mkBufferSerial [65] [] in
  let t2 := mkBufferSerial [] [] in
  (available t1 = (1, t1) /\ read t1 = (65, t2))
  /\ tx (snd (processCommands SpeeduinoProtocol_new sim t1))
     = to_bytes (status sim)
  /\ List.length (to_bytes (status sim)) = 79%nat
  /\ nth 0 (to_bytes (status sim)) 0 = 65.
Proof.
  cbv zeta.
  destruct (@C1_realtime_data_is_the_wire_record
              BufferSerial BufferSerialPort
              ScriptedEnv ScriptedTime ScriptedRandom
              SpeeduinoProtocol_new (fst (power_on []))
              (mkBufferSerial [65] []) 1 (mkBufferSerial [65] [])
              (mkBufferSerial [] []) eq_refl eq_refl eq_refl)
    as (Hrun & Hlen & Hfirst).
  split; [split; reflexivity |].
  split; [rewrite Hrun; reflexivity |].
  split; [exact Hlen |].
  apply Hfirst.
  exact (Reachable_initialize zero_status (mkScriptedEnv 0 [])
           (mkScriptedEnv 0 [])).
Defined.

Lemma C2_every_command_is_counted_witness :
  let sim := fst (power_on []) in
  let t1 := mkBufferSerial [90] [] in
  let r := processCommands SpeeduinoProtocol_new sim t1 in
  (0 <= 90 < 256 /\ ~ In 90 [65; 81; 86; 118; 83; 110])
  /\ fst (fst r) = true
  /\ commandCount (snd (fst r)) = 1
  /\ errorCount (snd (fst r)) = 1
  /\ tx (snd r) = [255].
Proof.
  cbv zeta.
  assert (Hout : ~ In 90 [65; 81; 86; 118; 83; 110])
    by (cbn [In]; intros H; repeat destruct H as [H | H];
        try discriminate H; exact H).
  assert (Hbyte : 0 <= 90 < 256) by lia.
  destruct (@C2_every_command_is_counted BufferSerial BufferSerialPort
              SpeeduinoProtocol_new (fst (power_on []))
              (mkBufferSerial [90] []) 1 (mkBufferSerial [90] []) 90
              (mkBufferSerial [] []) eq_refl eq_refl eq_refl
              Hbyte)
    as (Hret & _ & Hcount & Herr & _).
  destruct (Herr Hout) as (_ & Herr1 & Hsent).
  split; [split; [lia | exact Hout] |].
  split; [exact Hret |].
  split; [rewrite Hcount; [reflexivity | cbn; lia] |].
  split; [rewrite Herr1; [reflexivity | cbn; lia] |].
  rewrite Hsent. reflexivity.
Defined.

Lemma C9_page_sizes_response_witness :
  let sim := fst (power_on []) in
  let t1 := mkBufferSerial [110] [] in
  (available t1 = (1, t1) /\ read t1 = (110, mkBufferSerial [] []))
  /\ tx (snd (processCommands SpeeduinoProtocol_new sim t1))
     = [2; 32; 0; 0; 1; 0; 0].
Proof.
  cbv zeta.
  destruct (@C9_page_sizes_response BufferSerial BufferSerialPort
              SpeeduinoProtocol_new (fst (power_on []))
              (mkBufferSerial [110] []) 1 (mkBufferSerial [110] [])
              (mkBufferSerial [] []) eq_refl eq_refl eq_refl)
    as (Hrun & _ & _).
  split; [split; reflexivity |].
  rewrite Hrun. reflexivity.
Defined.

Lemma C3_pulse_width_after_tick_witness :
  let s0 := fst (power_on []) in
  let r := update s0 statics_at_start (mkScriptedEnv 50 []) in
  fst (fst (fst r)) = true
  /\ PW_MIN <= getPulseWidth (status (snd (fst (fst r)))) <= PW_MAX
  /\ 10 <= pulseWidth (snd (fst (fst r))) <= 357.
Proof.
  cbv zeta. split; [vm_compute; reflexivity |].
  apply (C3_pulse_width_after_tick
           (fst (power_on [])) statics_at_start (mkScriptedEnv 50 []) _
           (snd (fst (update (fst (power_on [])) statics_at_start
                        (mkScriptedEnv 50 []))))
           (snd (update (fst (power_on [])) statics_at_start
                   (mkScriptedEnv 50 [])))).
  vm_compute. reflexivity.
Defined.

Lemma C6_tick_within_interval_witness :
  let s0 := fst (power_on []) in
  let e := mkScriptedEnv 20 [] in
  to_u32 (fst (millis e) - lastUpdateTime s0) < UPDATE_INTERVAL_MS
  /\ update s0 statics_at_start e = ((false, s0, statics_at_start), e).
Proof.
  cbv zeta.
  assert (Hlt : to_u32 (fst (millis (mkScriptedEnv 20 []))
                        - lastUpdateTime (fst (power_on [])))
                < UPDATE_INTERVAL_MS) by (vm_compute; reflexivity).
  split; [exact Hlt |].
  exact (C6_tick_within_interval_is_noop
           (fst (power_on [])) statics_at_start (mkScriptedEnv 20 []) Hlt).
Defined.

Lemma C10_first_tick_pulse_width_witness :
  let s := fst (EngineSimulator_new zero_status (mkScriptedEnv 0 [])) in
  let s0 := fst (initialize s (mkScriptedEnv 0 [])) in
  let r := update s0 statics_at_start (mkScriptedEnv 50 []) in
  fst (fst (fst r)) = true
  /\ getPulseWidth (status (snd (fst (fst r)))) = PW_MIN.
Proof.
  cbv zeta. split; [vm_compute; reflexivity |].
  apply (C10_first_tick_pulse_width_is_PW_MIN
           (fst (EngineSimulator_new zero_status (mkScriptedEnv 0 [])))
           (mkScriptedEnv 0 []) statics_at_start (mkScriptedEnv 50 []) _
           (snd (fst (update
                        (fst (initialize
                                (fst (EngineSimulator_new zero_status
                                        (mkScriptedEnv 0 [])))
                                (mkScriptedEnv 0 [])))
                        statics_at_start (mkScriptedEnv 50 []))))
           (snd (update
                   (fst (initialize
                           (fst (EngineSimulator_new zero_status
                                   (mkScriptedEnv 0 [])))
                           (mkScriptedEnv 0 [])))
                   statics_at_start (mkScriptedEnv 50 [])))).
  vm_compute. reflexivity.
Defined.

Lemma power_on_RunsAlone : forall script,
  RunsAlone (fst (power_on script)) statics_at_start.
Proof.
  intros script. unfold power_on.
  destruct (EngineSimulator_new zero_status (mkScriptedEnv 0 script))
    as [s e].
  apply RunsAlone_initialize. apply ProgramStatics_start.
Qed.

Lemma run_ticks_RunsAlone : forall n step s k e,
  RunsAlone s k ->
  RunsAlone (fst (fst (run_ticks n step s k e)))
    (snd (fst (run_ticks n step s k e))).
Proof.
  induction n as [| n IH]; intros step s k e Hs.
  - exact Hs.
  - cbn [run_ticks].
    pose proof (RunsAlone_update s k
                  (mkScriptedEnv (to_u32 (clock e + step)) (draws e)) Hs)
      as Hnext.
    destruct (update s k (mkScriptedEnv (to_u32 (clock e + step)) (draws e)))
      as [[[changed s'] k'] e']. cbn [fst snd] in Hnext.
    apply IH. exact Hnext.
Qed.

Lemma C7_ego_correction_after_tick_witness :
  let r23 := run_ticks 23 50 (fst (power_on [])) statics_at_start
               (snd (power_on [])) in
  let r := update (fst (fst r23)) (snd (fst r23)) (mkScriptedEnv 1200 []) in
  fst (fst (fst r)) = true
  /\ 500 < coolantTemp (snd (fst (fst r)))
  /\ currentMode (snd (fst (fst r))) <> WOT
  /\ 89 <= egocorrection (status (snd (fst (fst r)))) <= 111.
Proof.
  cbv zeta.
  assert (Halone :
    RunsAlone
      (fst (fst (run_ticks 23 50 (fst (power_on [])) statics_at_start
                   (snd (power_on [])))))
      (snd (fst (run_ticks 23 50 (fst (power_on [])) statics_at_start
                   (snd (power_on [])))))).
  { apply run_ticks_RunsAlone. apply power_on_RunsAlone. }
  assert (Hwarm :
    500 < coolantTemp
            (snd (fst (fst (update
              (fst (fst (run_ticks 23 50 (fst (power_on []))
                           statics_at_start (snd (power_on [])))))
              (snd (fst (run_ticks 23 50 (fst (power_on []))
                           statics_at_start (snd (power_on [])))))
              (mkScriptedEnv 1200 []))))))
    by (vm_compute; reflexivity).
  assert (Hmode :
    currentMode
      (snd (fst (fst (update
         (fst (fst (run_ticks 23 50 (fst (power_on []))
                      statics_at_start (snd (power_on [])))))
         (snd (fst (run_ticks 23 50 (fst (power_on []))
                      statics_at_start (snd (power_on [])))))
         (mkScriptedEnv 1200 []))))) <> WOT)
    by (vm_compute; discriminate).
  split; [vm_compute; reflexivity |].
  split; [exact Hwarm |].
  split; [exact Hmode |].
  refine (proj1 (C7_ego_correction_after_tick
                   (fst (fst (run_ticks 23 50 (fst (power_on []))
                                statics_at_start (snd (power_on [])))))
                   (snd (fst (run_ticks 23 50 (fst (power_on []))
                                statics_at_start (snd (power_on [])))))
                   (mkScriptedEnv 1200 []) _
                   (snd (fst (update
                      (fst (fst (run_ticks 23 50 (fst (power_on []))
                                   statics_at_start (snd (power_on [])))))
                      (snd (fst (run_ticks 23 50 (fst (power_on []))
                                   statics_at_start (snd (power_on [])))))
                      (mkScriptedEnv 1200 []))))
                   (snd (update
                      (fst (fst (run_ticks 23 50 (fst (power_on []))
                                   statics_at_start (snd (power_on [])))))
                      (snd (fst (run_ticks 23 50 (fst (power_on []))
                                   statics_at_start (snd (power_on [])))))
                      (mkScriptedEnv 1200 [])))
                   _)
            Halone (conj Hwarm Hmode)).
  vm_compute. reflexivity.
Defined.
